(** * pontalk: scripts/post_to_wordpress.py

    A shallow embedding of the publishing script and the properties of its
    document parser, taxonomy resolution and request sequence.

    Text is modelled as [string]; a character is a code point below 256, so
    the development covers documents written in that range.  The Markdown
    renderer (the third-party [markdown] package) is a parameter of the
    pipeline. *)

From Stdlib Require Import ZArith Ascii.
From stdpp Require Import gmap strings list.

#[local] Arguments String.append !_ _ / : simpl nomatch.

(** ** Python [str] methods used by the script *)

Module Str.

Definition nl : ascii := "010"%char.
Definition NL : string := String nl "".

(** [str.isspace] on one character (code points below 256). *)
Definition isspace (c : ascii) : bool :=
  let n := nat_of_ascii c in
  ((9 <=? n) && (n <=? 13)) || ((28 <=? n) && (n <=? 32))
  || (n =? 133) || (n =? 160).

(** [str.lower] on one character (code points below 256). *)
Definition lower_char (c : ascii) : ascii :=
  let n := nat_of_ascii c in
  if ((65 <=? n) && (n <=? 90))
     || ((192 <=? n) && (n <=? 222) && negb (n =? 215))
  then ascii_of_nat (n + 32) else c.

Fixpoint lower (s : string) : string :=
  match s with
  | EmptyString => EmptyString
  | String c s' => String (lower_char c) (lower s')
  end.

Fixpoint lstrip (s : string) : string :=
  match s with
  | EmptyString => EmptyString
  | String c s' => if isspace c then lstrip s' else s
  end.

Fixpoint rstrip (s : string) : string :=
  match s with
  | EmptyString => EmptyString
  | String c s' =>
      match rstrip s' with
      | EmptyString => if isspace c then EmptyString else String c EmptyString
      | r => String c r
      end
  end.

Definition strip (s : string) : string := rstrip (lstrip s).

Fixpoint startswith (p s : string) : bool :=
  match p, s with
  | EmptyString, _ => true
  | String _ _, EmptyString => false
  | String a p', String b s' => Ascii.eqb a b && startswith p' s'
  end.

(** [p in s] *)
Fixpoint contains (p s : string) : bool :=
  startswith p s ||
  match s with
  | EmptyString => false
  | String _ s' => contains p s'
  end.

(** [s.split(sep)] for a one-character separator. *)
Fixpoint split (sep : ascii) (s : string) : list string :=
  match s with
  | EmptyString => [EmptyString]
  | String c s' =>
      if Ascii.eqb c sep then EmptyString :: split sep s'
      else match split sep s' with
           | h :: t => String c h :: t
           | [] => [String c EmptyString]
           end
  end.

(** [sep.join(l)] *)
Fixpoint join (sep : string) (l : list string) : string :=
  match l with
  | [] => EmptyString
  | [x] => x
  | x :: l' => x +:+ sep +:+ join sep l'
  end.

(** [s.replace(old, new)] for a one-character [old]. *)
Fixpoint replace (old : ascii) (new : string) (s : string) : string :=
  match s with
  | EmptyString => EmptyString
  | String c s' =>
      if Ascii.eqb c old then new +:+ replace old new s'
      else String c (replace old new s')
  end.

Fixpoint count (a : ascii) (s : string) : nat :=
  match s with
  | EmptyString => 0
  | String c s' => (if Ascii.eqb c a then 1 else 0) + count a s'
  end.

End Str.

(** ** The three regular expressions of [parse_markdown] *)

Module Re.
Import Str.

(** The longest run of characters other than newline at the head of [s]
    (what a greedy [.*] takes), and the text after it. *)
Fixpoint dot_star (s : string) : string * string :=
  match s with
  | EmptyString => (EmptyString, EmptyString)
  | String c s' =>
      if Ascii.eqb c nl then (EmptyString, s)
      else let (g, r) := dot_star s' in (String c g, r)
  end.

Fixpoint strip_lit (lit s : string) : option string :=
  match lit, s with
  | EmptyString, _ => Some s
  | String _ _, EmptyString => None
  | String a lit', String b s' =>
      if Ascii.eqb a b then strip_lit lit' s' else None
  end.

(** The pattern [lit(.+)] anchored at the head of [s]: group 1 and the
    text after the match. *)
Definition match_here (lit s : string) : option (string * string) :=
  match strip_lit lit s with
  | Some r =>
      match dot_star r with
      | (EmptyString, _) => None
      | (g, rest) => Some (g, rest)
      end
  | None => None
  end.

(** [re.search(lit + '(.+)', s)]: group 1 of the leftmost match. *)
Fixpoint search (lit s : string) : option string :=
  match match_here lit s with
  | Some (g, _) => Some g
  | None =>
      match s with
      | EmptyString => None
      | String _ s' => search lit s'
      end
  end.

(** [re.search('^' + lit + '(.+)', s, re.MULTILINE)]; [bol] tells whether
    the head of [s] is at the beginning of a line. *)
Fixpoint search_bol (lit : string) (bol : bool) (s : string) : option string :=
  match (if bol then match_here lit s else None) with
  | Some (g, _) => Some g
  | None =>
      match s with
      | EmptyString => None
      | String c s' => search_bol lit (Ascii.eqb c nl) s'
      end
  end.

(** [re.sub('^' + lit + '.+\n', '', s, count=1)], no flags: [^] matches at
    the start of the text only. *)
Definition sub_head (lit s : string) : string :=
  match match_here lit s with
  | Some (_, String c rest) => if Ascii.eqb c nl then rest else s
  | _ => s
  end.

End Re.

(** ** [parse_markdown], after the file has been read *)

Record scan_state := ScanState {
  content_ : string;
  excerpt : string;
  excerpt_flag : Z
}.

Definition scan_init : scan_state := ScanState "" "" 0.

(** One iteration of the [for line_ in lines] loop. *)
Definition scan_step (st : scan_state) (line_ : string) : scan_state :=
  if Str.startswith "Categories: " line_ then st
  else if Str.startswith "Tags: " line_ then st
  else if Str.contains "## Excerpt" line_ then
    ScanState (content_ st) (excerpt st) 1
  else if (excerpt_flag st =? 0)%Z then
    ScanState (content_ st +:+ line_ +:+ Str.NL) (excerpt st) (excerpt_flag st)
  else
    ScanState (content_ st) (excerpt st +:+ line_ +:+ Str.NL) (excerpt_flag st).

Definition scan (lines : list string) : scan_state :=
  foldl scan_step scan_init lines.

Definition parse_title (text : string) : string :=
  match Re.search_bol "# " true text with
  | Some g => g
  | None => "No title"
  end.

Definition parse_names (lit text : string) : list string :=
  match Re.search lit text with
  | Some g => map (fun c => Str.lower (Str.strip c)) (Str.split "," g)
  | None => []
  end.

Definition parse_categories (text : string) : list string :=
  parse_names "Categories: " text.

Definition parse_tags (text : string) : list string :=
  parse_names "Tags: " text.

Definition content_md (text : string) : string :=
  Str.strip (Re.sub_head "# " text).

Definition content_lines (text : string) : list string :=
  Str.split Str.nl (content_md text).

Record parsed := Parsed {
  p_title : string;
  p_categories : list string;
  p_tags : list string;
  p_excerpt : string;
  p_content_html : string
}.

(** ** JSON values, HTTP exchanges and errors *)

#[warnings="-register-all"]
Inductive json :=
| JNull
| JBool (b : bool)
| JNum (n : Z)
| JStr (s : string)
| JArr (items : list json)
| JObj (fields : list (string * json))   (* the decoded dict, one entry per key *).

Inductive exn :=
| HTTPError (status : Z)
| ConnectionError
| JSONDecodeError
| KeyError (key : string)
| TypeError
| AttributeError
| OSError.

Definition res (A : Type) : Type := exn + A.

Definition rbind {A B} (r : res A) (k : A -> res B) : res B :=
  match r with
  | inl e => inl e
  | inr a => k a
  end.

(** [j[key]] for a string [key]. *)
Definition getitem (j : json) (key : string) : res json :=
  match j with
  | JObj fields =>
      match list_find (fun kv => kv.1 = key) fields with
      | Some (_, kv) => inr kv.2
      | None => inl (KeyError key)
      end
  | _ => inl TypeError
  end.

(** [for item in j] *)
Definition iter_json (j : json) : res (list json) :=
  match j with
  | JArr items => inr items
  | JObj fields => inr (map (fun kv => JStr kv.1) fields)
  | JStr s => inr (map (fun c => JStr (String c "")) (String.list_ascii_of_string s))
  | _ => inl TypeError
  end.

Record response := Response {
  status_code : Z;
  body : option json   (* [None]: the body is not JSON *)
}.

(** The post-creation request body. *)
Record payload := Payload {
  title : string;
  status : string;
  content : string;
  categories : list json;
  excerpt_field : string;
  tags : list json
}.

Inductive request :=
| ReqToken (username password : string)
| ReqTerms (term_type : string)
| ReqPost (token : json) (data : payload).

Definition is_token_request (rq : request) : bool :=
  match rq with ReqToken _ _ => true | _ => false end.

(** Everything outside the process: credentials, the remote system's answer
    to each request ([None]: no answer, the transport fails) and the files. *)
Record world := World {
  wp_user : string;
  wp_pass : string;
  token_endpoint : option response;
  terms_endpoint : string -> option response;
  posts_endpoint : json -> payload -> option response;
  files : string -> option string
}.

(** A run threads the log of requests sent so far and may raise. *)
Definition M (A : Type) : Type := list request -> res A * list request.

Definition ret {A} (a : A) : M A := fun log => (inr a, log).

Definition raise {A} (e : exn) : M A := fun log => (inl e, log).

Definition bind {A B} (m : M A) (k : A -> M B) : M B :=
  fun log =>
    match m log with
    | (inl e, log') => (inl e, log')
    | (inr a, log') => k a log'
    end.

Definition lift {A} (r : res A) : M A := fun log => (r, log).

Notation "'let*' x ':=' m 'in' k" := (bind m (fun x => k))
  (at level 10, x pattern, m at level 100, k at level 200).

(** [requests.get] / [requests.post] *)
Definition send (rq : request) (answer : option response) : M response :=
  fun log =>
    match answer with
    | Some r => (inr r, log ++ [rq])
    | None => (inl ConnectionError, log ++ [rq])
    end.

Definition http_failure (code : Z) : bool :=
  ((400 <=? code) && (code <? 600))%Z.

Definition raise_for_status (r : response) : M unit :=
  if http_failure (status_code r) then raise (HTTPError (status_code r))
  else ret tt.

Definition response_json (r : response) : M json :=
  match body r with
  | Some j => ret j
  | None => raise JSONDecodeError
  end.

Definition get_jwt_token (w : world) : M json :=
  let* response := send (ReqToken (wp_user w) (wp_pass w)) (token_endpoint w) in
  let* _ := raise_for_status response in
  let* j := response_json response in
  lift (getitem j "token").

(** One [name.lower(): id] entry of the dict comprehension. *)
Definition term_entry (item : json) : res (string * json) :=
  rbind (getitem item "name") (fun name =>
    match name with
    | JStr s => rbind (getitem item "id") (fun id => inr (Str.lower s, id))
    | _ => inl AttributeError
    end).

Fixpoint terms_dict (acc : gmap string json) (items : list json)
  : res (gmap string json) :=
  match items with
  | [] => inr acc
  | item :: items' =>
      rbind (term_entry item) (fun kv => terms_dict (<[kv.1 := kv.2]> acc) items')
  end.

Definition terms_of_json (j : json) : res (gmap string json) :=
  rbind (iter_json j) (terms_dict ∅).

Definition fetch_terms (w : world) (term_type : string) : M (gmap string json) :=
  let* r := send (ReqTerms term_type) (terms_endpoint w term_type) in
  let* _ := raise_for_status r in
  let* j := response_json r in
  lift (terms_of_json j).

(** ** Name normalisation and resolution in [post_to_wordpress] *)

Definition escape_amp (item : string) : string := Str.replace "&" "&amp;" item.

(** The [for item in ...: modified.append(item.replace('&', '&amp;'))] loops. *)
Definition modified (names : list string) : list string :=
  foldl (fun acc item => acc ++ [escape_amp item]) [] names.

(** [d.get(c)] *)
Definition dict_get (d : gmap string json) (c : string) : json :=
  default JNull (d !! c).

(** [[d.get(c) for c in names if c in d]] *)
Definition resolve_ids (d : gmap string json) (names : list string) : list json :=
  map (dict_get d) (filter (fun c => is_Some (d !! c)) names).

Definition build_payload (p : parsed) (category_map tag_map : gmap string json)
  : payload :=
  let modified_categories := modified (p_categories p) in
  let modified_tags := modified (p_tags p) in
  let category_ids := resolve_ids category_map modified_categories in
  let tag_ids := resolve_ids tag_map modified_tags in
  Payload (p_title p) "publish" (p_content_html p) category_ids
          (p_excerpt p) tag_ids.

Section Renderer.

(** [markdown.markdown(text, extensions=['fenced_code', 'codehilite'],
    extension_configs={'codehilite': {'noclasses': True}})] *)
Variable markdown : string -> string.

Definition parse_text (text : string) : parsed :=
  let st := scan (content_lines text) in
  Parsed (parse_title text) (parse_categories text) (parse_tags text)
         (excerpt st) (markdown (content_ st)).

Definition parse_markdown (w : world) (file_path : string) : M parsed :=
  match files w file_path with
  | Some text => ret (parse_text text)
  | None => raise OSError
  end.

(** Returns the link that is printed. *)
Definition post_to_wordpress (w : world) (file_path : string) : M json :=
  let* token := get_jwt_token w in
  let* category_map := fetch_terms w "categories" in
  let* tag_map := fetch_terms w "tags" in
  let* p := parse_markdown w file_path in
  let data := build_payload p category_map tag_map in
  let* r := send (ReqPost token data) (posts_endpoint w token data) in
  let* _ := raise_for_status r in
  let* j := response_json r in
  lift (getitem j "link").

Definition run (w : world) (file_path : string) : res json * list request :=
  post_to_wordpress w file_path [].

End Renderer.

(** ** The outcome of a run, exchange by exchange *)

(** What one exchange hands back to the script once [raise_for_status] and
    [.json()] have been applied to the answer. *)
Definition decoded (answer : option response) : res json :=
  match answer with
  | None => inl ConnectionError
  | Some r =>
      if http_failure (status_code r) then inl (HTTPError (status_code r))
      else match body r with
           | Some j => inr j
           | None => inl JSONDecodeError
           end
  end.

Definition token_result (w : world) : res json :=
  rbind (decoded (token_endpoint w)) (fun j => getitem j "token").

Definition terms_result (w : world) (term_type : string) : res (gmap string json) :=
  rbind (decoded (terms_endpoint w term_type)) terms_of_json.

Definition post_result (w : world) (token : json) (data : payload) : res json :=
  rbind (decoded (posts_endpoint w token data)) (fun j => getitem j "link").

Definition token_request (w : world) : request := ReqToken (wp_user w) (wp_pass w).

(** A world in which every exchange of the run succeeds. *)
Definition healthy (markdown : string → string) (w : world) (file_path : string)
    (token : json) (category_map tag_map : gmap string json) (text : string)
    (link : json) : Prop :=
  token_result w = inr token ∧
  terms_result w "categories" = inr category_map ∧
  terms_result w "tags" = inr tag_map ∧
  files w file_path = Some text ∧
  post_result w token
    (build_payload (parse_text markdown text) category_map tag_map) = inr link.

(** ** The scan, line by line *)

Definition is_meta (line : string) : bool :=
  Str.startswith "Categories: " line || Str.startswith "Tags: " line.

Definition has_marker (line : string) : bool := Str.contains "## Excerpt" line.

(** The lines that reach neither the body nor the excerpt. *)
Definition dropped (line : string) : bool := is_meta line || has_marker line.

(** The lines that set [excerpt_flag]. *)
Definition switches (line : string) : bool := negb (is_meta line) && has_marker line.

Fixpoint before_marker (lines : list string) : list string :=
  match lines with
  | [] => []
  | l :: ls => if switches l then [] else l :: before_marker ls
  end.

Fixpoint after_marker (lines : list string) : list string :=
  match lines with
  | [] => []
  | l :: ls => if switches l then ls else after_marker ls
  end.

Definition kept (lines : list string) : list string :=
  List.filter (fun l => negb (dropped l)) lines.

Fixpoint lines_text (lines : list string) : string :=
  match lines with
  | [] => ""
  | l :: ls => l +:+ Str.NL +:+ lines_text ls
  end.

(** The scan as the specification words it: the lines dropped are the ones
    equal to the Categories or Tags metadata line (the text matched by the
    metadata pattern) and the ones containing the marker. *)
Definition metadata_line (lit text : string) : list string :=
  match Re.search lit text with
  | Some g => [lit +:+ g]
  | None => []
  end.

Definition metadata_lines (text : string) : list string :=
  metadata_line "Categories: " text ++ metadata_line "Tags: " text.

Definition spec_scan_step (meta : list string) (st : scan_state) (line_ : string)
  : scan_state :=
  if bool_decide (line_ ∈ meta) then st
  else if Str.contains "## Excerpt" line_ then
    ScanState (content_ st) (excerpt st) 1
  else if (excerpt_flag st =? 0)%Z then
    ScanState (content_ st +:+ line_ +:+ Str.NL) (excerpt st) (excerpt_flag st)
  else
    ScanState (content_ st) (excerpt st +:+ line_ +:+ Str.NL) (excerpt_flag st).

Definition spec_scan (text : string) : scan_state :=
  foldl (spec_scan_step (metadata_lines text)) scan_init (content_lines text).

(** ** Shape of the text around a metadata line *)

(** [s] is empty or ends with a newline. *)
Fixpoint complete_lines (s : string) : bool :=
  match s with
  | EmptyString => true
  | String c s' =>
      match s' with
      | EmptyString => Ascii.eqb c Str.nl
      | String _ _ => complete_lines s'
      end
  end.

(** [s] is empty or starts with a newline. *)
Definition at_eol (s : string) : bool :=
  match s with
  | EmptyString => true
  | String c _ => Ascii.eqb c Str.nl
  end.

Definition term_ok (t : string) : Prop :=
  Str.count "," t = 0 ∧ Str.count Str.nl t = 0.

(** ** Documents and worlds used in the scenarios *)

Definition doc_hello : string :=
  "# Hello" +:+ Str.NL +:+ "Categories: news" +:+ Str.NL +:+
  "Tags: go, rust" +:+ Str.NL +:+ "Body text" +:+ Str.NL +:+
  "## Excerpt" +:+ Str.NL +:+ "Short." +:+ Str.NL.

Definition doc_late_title : string :=
  "Intro" +:+ Str.NL +:+ "# Hello" +:+ Str.NL +:+ "Body" +:+ Str.NL.

Definition doc_two_tags : string :=
  "Tags: go" +:+ Str.NL +:+ "Tags: rust" +:+ Str.NL +:+ "Body".

Definition doc_abc : string :=
  "# T" +:+ Str.NL +:+ "Categories: a, B , c" +:+ Str.NL +:+ "Body".

(** What the renderer returns for a text that is one paragraph of plain
    words: the paragraph, trimmed, inside a [p] element. *)
Definition render_paragraph (s : string) : string :=
  "<p>" +:+ Str.strip s +:+ "</p>".

Definition ok_json (j : json) : option response := Some (Response 200 (Some j)).

Definition term_json (id : Z) (name : string) : json :=
  JObj [("id", JNum id); ("name", JStr name)].

(** The remote system of the scenario: categories [{news:1}], tags [{go:2}]. *)
Definition w_hello : world :=
  World "user" "secret"
    (ok_json (JObj [("token", JStr "t0")]))
    (fun term_type =>
       if bool_decide (term_type = "categories")
       then ok_json (JArr [term_json 1 "news"])
       else ok_json (JArr [term_json 2 "go"]))
    (fun _ _ => Some (Response 201 (Some (JObj [("link", JStr "https://blog/hello")]))))
    (fun _ => Some doc_hello).

(** The same remote system rejecting the credentials. *)
Definition w_401 : world :=
  World "user" "wrong" (Some (Response 401 (Some (JObj [("code", JStr "denied")]))))
    (terms_endpoint w_hello) (posts_endpoint w_hello) (files w_hello).

(** ** Further remote systems and documents *)

(** The remote system of the scenario with one answer or the file changed. *)
Definition w_no_file : world :=
  World (wp_user w_hello) (wp_pass w_hello) (token_endpoint w_hello)
    (terms_endpoint w_hello) (posts_endpoint w_hello) (fun _ => None).

Definition w_terms (categories_answer tags_answer : option response) : world :=
  World (wp_user w_hello) (wp_pass w_hello) (token_endpoint w_hello)
    (fun term_type =>
       if bool_decide (term_type = "categories") then categories_answer
       else tags_answer)
    (posts_endpoint w_hello) (files w_hello).

Definition w_no_link : world :=
  World (wp_user w_hello) (wp_pass w_hello) (token_endpoint w_hello)
    (terms_endpoint w_hello)
    (fun _ _ => Some (Response 201 (Some (JObj [("id", JNum 9)]))))
    (files w_hello).

(** The fixed order of the requests that come before the post. *)
Definition preamble (w : world) : list request :=
  [token_request w; ReqTerms "categories"; ReqTerms "tags"].

(** The dict built from name/identifier entries taken in order. *)
Definition dict_of (acc : gmap string json) (kvs : list (string * json))
  : gmap string json :=
  foldl (fun m kv => <[kv.1 := kv.2]> m) acc kvs.

Definition all_space (s : string) : bool :=
  forallb Str.isspace (String.list_ascii_of_string s).

Definition doc_plain : string :=
  "# Title" +:+ Str.NL +:+ "first line" +:+ Str.NL +:+ Str.NL +:+ "last line" +:+ Str.NL.

(** ** Facts about the string helpers *)

Lemma sapp_nil_r (s : string) : s +:+ "" = s.
Proof. induction s as [|c s IH]; simpl; [done | by rewrite IH]. Qed.

Lemma sapp_assoc (s1 s2 s3 : string) : (s1 +:+ s2) +:+ s3 = s1 +:+ s2 +:+ s3.
Proof. induction s1 as [|c s1 IH]; simpl; [done | by rewrite IH]. Qed.

Lemma length_sapp (s1 s2 : string) :
  String.length (s1 +:+ s2) = String.length s1 + String.length s2.
Proof. induction s1 as [|c s1 IH]; simpl; [done | by rewrite IH]. Qed.

Lemma replace_sapp (a : ascii) (new s1 s2 : string) :
  Str.replace a new (s1 +:+ s2) = Str.replace a new s1 +:+ Str.replace a new s2.
Proof.
  induction s1 as [|c s1 IH]; simpl; [done |].
  destruct (Ascii.eqb c a); rewrite IH; [by rewrite sapp_assoc | done].
Qed.

Lemma length_escape_amp (s : string) :
  String.length (escape_amp s) = String.length s + 4 * Str.count "&" s.
Proof.
  unfold escape_amp. induction s as [|c s IH]; simpl; [done |].
  destruct (Ascii.eqb c "&"); simpl; rewrite IH; lia.
Qed.

Lemma escape_amp_fixed (s : string) : escape_amp s = s → Str.count "&" s = 0.
Proof.
  intros E. pose proof (length_escape_amp s) as L. rewrite E in L. lia.
Qed.

(** ** Normalisation and resolution *)

Lemma modified_from (acc names : list string) :
  foldl (fun acc item => acc ++ [escape_amp item]) acc names
  = acc ++ map escape_amp names.
Proof.
  revert acc. induction names as [|c names IH]; intros acc; simpl.
  - by rewrite List.app_nil_r.
  - rewrite IH. by rewrite <- List.app_assoc.
Qed.

Lemma modified_map (names : list string) : modified names = map escape_amp names.
Proof. unfold modified. by rewrite modified_from. Qed.

Lemma modified_app (l1 l2 : list string) :
  modified (l1 ++ l2) = modified l1 ++ modified l2.
Proof. rewrite !modified_map. apply map_app. Qed.

Lemma resolve_ids_cons_Some (d : gmap string json) c v names :
  d !! c = Some v → resolve_ids d (c :: names) = v :: resolve_ids d names.
Proof.
  intros H. unfold resolve_ids. rewrite filter_cons_True by (rewrite H; eauto).
  simpl. unfold dict_get at 1. by rewrite H.
Qed.

Lemma resolve_ids_cons_None (d : gmap string json) c names :
  d !! c = None → resolve_ids d (c :: names) = resolve_ids d names.
Proof.
  intros H. unfold resolve_ids. rewrite filter_cons_False; [done |].
  rewrite H. by intros [? ?].
Qed.

Lemma resolve_ids_app (d : gmap string json) (l1 l2 : list string) :
  resolve_ids d (l1 ++ l2) = resolve_ids d l1 ++ resolve_ids d l2.
Proof. unfold resolve_ids. by rewrite filter_app, map_app. Qed.

Lemma resolve_ids_omap (d : gmap string json) (names : list string) :
  resolve_ids d names = omap (fun c => d !! c) names.
Proof.
  induction names as [|c names IH]; [done |].
  destruct (d !! c) as [v|] eqn:E.
  - rewrite (resolve_ids_cons_Some _ _ v) by done. simpl. by rewrite E, IH.
  - rewrite resolve_ids_cons_None by done. simpl. by rewrite E.
Qed.

Lemma resolve_ids_replicate (d : gmap string json) c v (n : nat) :
  d !! c = Some v → resolve_ids d (replicate n c) = replicate n v.
Proof.
  intros H. induction n as [|n IH]; [done |].
  simpl. rewrite (resolve_ids_cons_Some _ _ v) by done. by rewrite IH.
Qed.

Lemma elem_of_resolve_ids (d : gmap string json) (names : list string) v :
  v ∈ resolve_ids d names ↔ ∃ c, c ∈ names ∧ d !! c = Some v.
Proof.
  rewrite resolve_ids_omap, list_elem_of_omap. naive_solver.
Qed.

(** ** The request sequence *)

Lemma get_jwt_token_run (w : world) log :
  get_jwt_token w log = (token_result w, log ++ [token_request w]).
Proof.
  unfold get_jwt_token, token_result, token_request, bind, send,
    raise_for_status, response_json, decoded, raise, ret, lift.
  destruct (token_endpoint w) as [r|]; [| done]. simpl.
  destruct (http_failure (status_code r)); [done |].
  by destruct (body r).
Qed.

Lemma fetch_terms_run (w : world) (term_type : string) log :
  fetch_terms w term_type log = (terms_result w term_type, log ++ [ReqTerms term_type]).
Proof.
  unfold fetch_terms, terms_result, bind, send, raise_for_status,
    response_json, decoded, raise, ret, lift.
  destruct (terms_endpoint w term_type) as [r|]; [| done]. simpl.
  destruct (http_failure (status_code r)); [done |].
  by destruct (body r).
Qed.

Section Run.

Variable markdown : string → string.

(** The outcome and the request log of a run, case by case. *)
Lemma run_cases (w : world) (file_path : string) :
  run markdown w file_path =
  match token_result w with
  | inl e => (inl e, [token_request w])
  | inr token =>
      match terms_result w "categories" with
      | inl e => (inl e, [token_request w; ReqTerms "categories"])
      | inr category_map =>
          match terms_result w "tags" with
          | inl e =>
              (inl e, [token_request w; ReqTerms "categories"; ReqTerms "tags"])
          | inr tag_map =>
              match files w file_path with
              | None =>
                  (inl OSError,
                   [token_request w; ReqTerms "categories"; ReqTerms "tags"])
              | Some text =>
                  let data :=
                    build_payload (parse_text markdown text) category_map tag_map in
                  (post_result w token data,
                   [token_request w; ReqTerms "categories"; ReqTerms "tags";
                    ReqPost token data])
              end
          end
      end
  end.
Proof.
  unfold run, post_to_wordpress. unfold bind at 1.
  rewrite get_jwt_token_run. destruct (token_result w) as [e|token]; [done |].
  unfold bind at 1. rewrite fetch_terms_run.
  destruct (terms_result w "categories") as [e|cm]; [done |].
  unfold bind at 1. rewrite fetch_terms_run.
  destruct (terms_result w "tags") as [e|tm]; [done |].
  unfold bind at 1, parse_markdown.
  destruct (files w file_path) as [text|]; [| done]. simpl.
  unfold post_result, bind, send, raise_for_status, response_json, decoded,
    raise, ret, lift.
  destruct (posts_endpoint _ _ _) as [r|]; [| done]. simpl.
  destruct (http_failure (status_code r)); [done |].
  by destruct (body r).
Qed.

Lemma run_healthy w file_path token category_map tag_map text link :
  healthy markdown w file_path token category_map tag_map text link →
  run markdown w file_path =
  (inr link,
   [token_request w; ReqTerms "categories"; ReqTerms "tags";
    ReqPost token
      (build_payload (parse_text markdown text) category_map tag_map)]).
Proof.
  intros (Ht & Hc & Hg & Hf & Hp). rewrite run_cases, Ht, Hc, Hg, Hf.
  simpl. by rewrite Hp.
Qed.

End Run.

(** ** The publishing scenario *)

(** C1: for the document
    "# Hello\nCategories: news\nTags: go, rust\nBody text\n## Excerpt\nShort.\n"
    and the remote maps {news:1} and {go:2}, the payload has title "Hello",
    categories [1], tags [2] (the name "rust" is not in the map and is left
    out), excerpt "Short.\n", and as content the rendering of "Body text\n",
    which is "<p>Body text</p>" for a renderer that turns this one-line
    paragraph into a [p] element. *)
Theorem C1_hello_payload (markdown : string → string) :
  markdown ("Body text" +:+ Str.NL) = "<p>Body text</p>" →
  parse_tags doc_hello = ["go"; "rust"] ∧
  build_payload (parse_text markdown doc_hello)
    {["news" := JNum 1]} {["go" := JNum 2]}
  = Payload "Hello" "publish" "<p>Body text</p>" [JNum 1]
      ("Short." +:+ Str.NL) [JNum 2].
Proof.
  intros H. split; [reflexivity |].
  unfold build_payload, parse_text.
  replace (content_ (scan (content_lines doc_hello)))
    with ("Body text" +:+ Str.NL) by reflexivity.
  rewrite H. reflexivity.
Qed.

Lemma C1_hello_payload_witness :
  render_paragraph ("Body text" +:+ Str.NL) = "<p>Body text</p>" ∧
  build_payload (parse_text render_paragraph doc_hello)
    {["news" := JNum 1]} {["go" := JNum 2]}
  = Payload "Hello" "publish" "<p>Body text</p>" [JNum 1]
      ("Short." +:+ Str.NL) [JNum 2].
Proof.
  split; [reflexivity |].
  apply (C1_hello_payload render_paragraph). reflexivity.
Defined.

(** ** The title heading line *)

(** When the document starts with the heading line, followed by a newline,
    the heading is the title and is taken out of the remaining document. *)
Lemma dot_star_line (g post : string) :
  Str.count Str.nl g = 0 → at_eol post = true → Re.dot_star (g +:+ post) = (g, post).
Proof.
  induction g as [|c g IH]; simpl; intros Hc He.
  - destruct post as [|c post]; [done |]. simpl in *. by rewrite He.
  - destruct (Ascii.eqb c Str.nl); [done |]. by rewrite IH.
Qed.

Lemma strip_lit_sapp (lit r : string) : Re.strip_lit lit (lit +:+ r) = Some r.
Proof.
  induction lit as [|a lit IH]; simpl; [by destruct r |].
  by rewrite Ascii.eqb_refl.
Qed.

Lemma match_here_line (lit g post : string) :
  g ≠ "" → Str.count Str.nl g = 0 → at_eol post = true →
  Re.match_here lit (lit +:+ g +:+ post) = Some (g, post).
Proof.
  intros Hg Hc He. unfold Re.match_here.
  rewrite strip_lit_sapp, dot_star_line by done. by destruct g.
Qed.

Lemma heading_first_removed (t rest : string) :
  t ≠ "" → Str.count Str.nl t = 0 →
  parse_title ("# " +:+ t +:+ Str.NL +:+ rest) = t ∧
  content_md ("# " +:+ t +:+ Str.NL +:+ rest) = Str.strip rest.
Proof.
  intros Ht Hc. unfold parse_title, content_md, Re.sub_head.
  pose proof (match_here_line "# " t (Str.NL +:+ rest) Ht Hc eq_refl) as E.
  split.
  - change (String "#" (String " " (t +:+ Str.NL +:+ rest)))
      with ("# " +:+ t +:+ Str.NL +:+ rest).
    unfold Re.search_bol. destruct ("# " +:+ t +:+ Str.NL +:+ rest) eqn:D;
      [done |]. by rewrite E.
  - by rewrite E.
Qed.

(** C2: the title is searched on every line, the heading is removed at the
    start of the text only.  In "Intro\n# Hello\nBody\n" the title is "Hello"
    and the heading line stays in the body. *)
Theorem C2_late_heading_stays_in_body :
  parse_title doc_late_title = "Hello" ∧
  content_lines doc_late_title = ["Intro"; "# Hello"; "Body"] ∧
  content_ (scan (content_lines doc_late_title)) = doc_late_title ∧
  Str.contains "# Hello" (content_ (scan (content_lines doc_late_title))) = true.
Proof. repeat split; reflexivity. Qed.

(** ** Names that the remote system does not know *)

Lemma resolve_ids_drop_unknown (d : gmap string json) (l1 l2 : list string) c :
  d !! escape_amp c = None →
  resolve_ids d (modified (l1 ++ c :: l2)) = resolve_ids d (modified (l1 ++ l2)).
Proof.
  intros H. rewrite !modified_map, !map_app, !resolve_ids_app. simpl.
  by rewrite resolve_ids_cons_None.
Qed.

Lemma elem_of_resolved (d : gmap string json) (names : list string) v :
  v ∈ resolve_ids d (modified names) → ∃ c, c ∈ names ∧ d !! escape_amp c = Some v.
Proof.
  rewrite modified_map, elem_of_resolve_ids. intros (k & Hk & Hv).
  apply list_elem_of_fmap in Hk as (c & -> & Hc). eauto.
Qed.

(** C4: in a world where every exchange succeeds the run ends with the link,
    whatever names the document lists: the post request is sent, every
    identifier in its two lists is the value the fetched map holds for a
    (normalised) name of the document, and a name the map does not hold
    contributes nothing. *)
Theorem C4_unknown_names_are_left_out (markdown : string → string) (w : world)
    (file_path : string) (token : json) (category_map tag_map : gmap string json)
    (text : string) (link : json) :
  healthy markdown w file_path token category_map tag_map text link →
  let data := build_payload (parse_text markdown text) category_map tag_map in
  run markdown w file_path =
    (inr link,
     [token_request w; ReqTerms "categories"; ReqTerms "tags"; ReqPost token data]) ∧
  (∀ v, v ∈ categories data →
        ∃ c, c ∈ parse_categories text ∧ category_map !! escape_amp c = Some v) ∧
  (∀ v, v ∈ tags data →
        ∃ t, t ∈ parse_tags text ∧ tag_map !! escape_amp t = Some v) ∧
  (∀ (d : gmap string json) l1 c l2, d !! escape_amp c = None →
        resolve_ids d (modified (l1 ++ c :: l2)) = resolve_ids d (modified (l1 ++ l2))).
Proof.
  intros H data. split; [by apply run_healthy |].
  split; [intros v; apply elem_of_resolved |].
  split; [intros v; apply elem_of_resolved |].
  intros d l1 c l2. apply resolve_ids_drop_unknown.
Qed.

Lemma C4_unknown_names_are_left_out_witness :
  run render_paragraph w_hello "post.md" =
    (inr (JStr "https://blog/hello"),
     [token_request w_hello; ReqTerms "categories"; ReqTerms "tags";
      ReqPost (JStr "t0")
        (Payload "Hello" "publish" "<p>Body text</p>" [JNum 1]
           ("Short." +:+ Str.NL) [JNum 2])]).
Proof.
  refine (proj1 (C4_unknown_names_are_left_out render_paragraph w_hello "post.md"
    (JStr "t0") {["news" := JNum 1]} {["go" := JNum 2]} doc_hello
    (JStr "https://blog/hello") _)).
  repeat split; reflexivity.
Defined.

(** ** Authentication comes first *)

(** C5: when authentication fails, the run ends with the authentication
    error and the token request is the only request sent; a 401 answer is
    such a failure.  A taxonomy or post request is in the log of a run only
    if authentication gave a token. *)
Theorem C5_failed_authentication_aborts (markdown : string → string) (w : world)
    (file_path : string) (e : exn) :
  token_result w = inl e →
  get_jwt_token w [] = (inl e, [token_request w]) ∧
  run markdown w file_path = (inl e, [token_request w]) ∧
  (∀ r, token_endpoint w = Some r → status_code r = 401%Z → e = HTTPError 401) ∧
  (∀ w' rq, rq ∈ (run markdown w' file_path).2 → is_token_request rq = false →
        ∃ token, get_jwt_token w' [] = (inr token, [token_request w'])).
Proof.
  intros H. split; [by rewrite get_jwt_token_run, H |].
  split; [by rewrite run_cases, H |].
  split.
  - intros r Hr Hs. unfold token_result, decoded in H. rewrite Hr, Hs in H.
    simpl in H. congruence.
  - intros w' rq Hin Hrq. rewrite run_cases in Hin. rewrite get_jwt_token_run.
    destruct (token_result w') as [e'|token]; [| by eauto].
    simpl in Hin. apply list_elem_of_singleton in Hin. by subst rq.
Qed.

Lemma C5_failed_authentication_aborts_witness :
  run render_paragraph w_401 "post.md" = (inl (HTTPError 401), [token_request w_401]).
Proof.
  refine (proj1 (proj2 (C5_failed_authentication_aborts render_paragraph w_401
    "post.md" (HTTPError 401) _))).
  reflexivity.
Defined.

(** ** Ampersands *)

Lemma escape_amp_sapp (s1 s2 : string) :
  escape_amp (s1 +:+ s2) = escape_amp s1 +:+ escape_amp s2.
Proof. apply replace_sapp. Qed.

(** C6: the names looked up are the parsed names with every ampersand
    replaced by "&amp;" and every other character left as it is; the
    category "tips & tricks" is looked up under "tips &amp; tricks". *)
Theorem C6_ampersand_escaped_before_lookup (p : parsed)
    (category_map tag_map : gmap string json) :
  categories (build_payload p category_map tag_map)
    = resolve_ids category_map (map escape_amp (p_categories p)) ∧
  tags (build_payload p category_map tag_map)
    = resolve_ids tag_map (map escape_amp (p_tags p)) ∧
  (∀ c s, escape_amp (String c s)
          = (if Ascii.eqb c "&" then "&amp;" else String c "") +:+ escape_amp s) ∧
  (∀ s1 s2, escape_amp (s1 +:+ s2) = escape_amp s1 +:+ escape_amp s2) ∧
  escape_amp "tips & tricks" = "tips &amp; tricks" ∧
  (∀ v, resolve_ids {["tips &amp; tricks" := v]} (modified ["tips & tricks"]) = [v]) ∧
  (∀ v, resolve_ids {["tips & tricks" := v]} (modified ["tips & tricks"]) = []).
Proof.
  unfold build_payload; cbn [categories tags]. rewrite !modified_map.
  split; [done |]. split; [done |]. split.
  { intros c s. unfold escape_amp. simpl. by destruct (Ascii.eqb c "&"). }
  split; [apply escape_amp_sapp |]. split; [reflexivity |]. split.
  - intros v. change (map escape_amp ["tips & tricks"]) with ["tips &amp; tricks"].
    rewrite (resolve_ids_cons_Some _ _ v); [done |]. apply lookup_singleton_eq.
  - intros v. change (map escape_amp ["tips & tricks"]) with ["tips &amp; tricks"].
    rewrite resolve_ids_cons_None; [done |]. by apply lookup_singleton_ne.
Qed.

(** C9: every name is escaped before lookup, also one that already holds
    an ampersand, such as one written with "&amp;": the list looked up for
    the name [n] is [escape_amp n], which differs from [n] and still holds
    an ampersand.  So the identifiers sent for [n] are the ones the map
    holds under the twice-escaped key, and a remote term stored under [n]
    itself is never the one found. *)
Theorem C9_escaped_names_are_escaped_again (n : string) (v : json)
    (d : gmap string json) :
  Str.count "&" n ≠ 0 →
  escape_amp "&amp;" = "&amp;amp;" ∧
  (∀ names, modified names = map escape_amp names) ∧
  modified [n] = [escape_amp n] ∧
  escape_amp n ≠ n ∧
  Str.count "&" (escape_amp n) ≠ 0 ∧
  resolve_ids (<[n := v]> d) (modified [n])
    = match d !! escape_amp n with Some i => [i] | None => [] end ∧
  (∀ p tag_map, p_categories p = [n] →
     categories (build_payload p (<[n := v]> d) tag_map)
       = match d !! escape_amp n with Some i => [i] | None => [] end) ∧
  (∀ p category_map, p_tags p = [n] →
     tags (build_payload p category_map (<[n := v]> d))
       = match d !! escape_amp n with Some i => [i] | None => [] end) ∧
  (d !! escape_amp n = None → resolve_ids (<[n := v]> d) (modified [n]) = []).
Proof.
  intros Hn.
  assert (Hne : escape_amp n ≠ n).
  { intros E. apply escape_amp_fixed in E. contradiction. }
  assert (Hr : resolve_ids (<[n := v]> d) (modified [n])
               = match d !! escape_amp n with Some i => [i] | None => [] end).
  { rewrite modified_map. cbn [map].
    destruct (d !! escape_amp n) as [i|] eqn:E.
    - rewrite (resolve_ids_cons_Some _ _ i); [done |].
      by rewrite lookup_insert_ne.
    - rewrite resolve_ids_cons_None; [done |]. by rewrite lookup_insert_ne. }
  split; [reflexivity |]. split; [apply modified_map |].
  split; [by rewrite modified_map |]. split; [done |]. split.
  { clear Hne Hr. unfold escape_amp. induction n as [|c s IH]; [done |].
    simpl in *. destruct (Ascii.eqb c "&") eqn:E; simpl; [lia |].
    rewrite E. by apply IH. }
  split; [done |]. split.
  { intros p tag_map Hp. unfold build_payload. cbn [categories].
    by rewrite Hp. }
  split.
  { intros p category_map Hp. unfold build_payload. cbn [tags].
    by rewrite Hp. }
  intros Hd. by rewrite Hr, Hd.
Qed.

Lemma C9_escaped_names_are_escaped_again_witness :
  escape_amp "tips &amp; tricks" ≠ "tips &amp; tricks" ∧
  modified ["tips &amp; tricks"] = ["tips &amp;amp; tricks"] ∧
  resolve_ids
    (<["tips &amp; tricks" := JNum 7]> {["tips &amp;amp; tricks" := JNum 9]})
    (modified ["tips &amp; tricks"]) = [JNum 9].
Proof.
  destruct (C9_escaped_names_are_escaped_again "tips &amp; tricks" (JNum 7)
    ({["tips &amp;amp; tricks" := JNum 9]} : gmap string json))
    as (_ & _ & H1 & H2 & _ & H3 & _); [vm_compute; lia |].
  exact (conj H2 (conj H1 H3)).
Defined.

(** ** Order and repetition of identifiers *)

(** C10: the identifier list follows the document's names in order, one
    identifier per occurrence of a matched name: a name written [k] times
    between [l1] and [l2] gives its identifier [k] times between the
    identifiers of [l1] and those of [l2]. *)
Theorem C10_ids_keep_order_and_repeats (d : gmap string json)
    (l1 l2 : list string) (c : string) (v : json) (k : nat) :
  d !! escape_amp c = Some v →
  resolve_ids d (modified (l1 ++ replicate k c ++ l2))
    = resolve_ids d (modified l1) ++ replicate k v ++ resolve_ids d (modified l2) ∧
  (∀ names, resolve_ids d (modified names)
            = omap (fun c => d !! escape_amp c) names) ∧
  (∀ p tag_map, categories (build_payload p d tag_map)
            = omap (fun c => d !! escape_amp c) (p_categories p)) ∧
  (∀ p category_map, tags (build_payload p category_map d)
            = omap (fun c => d !! escape_amp c) (p_tags p)).
Proof.
  intros H.
  assert (Ho : ∀ names, resolve_ids d (modified names)
                        = omap (fun c => d !! escape_amp c) names).
  { intros names. rewrite modified_map, resolve_ids_omap.
    induction names as [|a names IH]; [done |].
    cbn [map omap list_omap]. cbn [map omap list_omap] in IH.
    by destruct (d !! escape_amp a); rewrite IH. }
  split; [| split; [done | split; intros; apply Ho]].
  rewrite !modified_app, !resolve_ids_app. do 2 f_equal.
  rewrite modified_map, fmap_replicate. by apply resolve_ids_replicate.
Qed.

Lemma C10_ids_keep_order_and_repeats_witness :
  resolve_ids {["go" := JNum 2; "news" := JNum 1]}
    (modified (["news"] ++ replicate 2 "go" ++ ["rust"; "news"]))
  = [JNum 1; JNum 2; JNum 2; JNum 1].
Proof.
  refine (proj1 (C10_ids_keep_order_and_repeats
    ({["go" := JNum 2; "news" := JNum 1]} : gmap string json)
    ["news"] ["rust"; "news"] "go" (JNum 2) 2 _)).
  reflexivity.
Defined.

(** ** Which lines the scan drops *)

Lemma scan_step_cases (st : scan_state) (l : string) :
  scan_step st l =
  if dropped l then
    if switches l then ScanState (content_ st) (excerpt st) 1 else st
  else if (excerpt_flag st =? 0)%Z then
    ScanState (content_ st +:+ l +:+ Str.NL) (excerpt st) (excerpt_flag st)
  else
    ScanState (content_ st) (excerpt st +:+ l +:+ Str.NL) (excerpt_flag st).
Proof.
  unfold scan_step, dropped, switches, is_meta, has_marker.
  destruct (Str.startswith "Categories: " l), (Str.startswith "Tags: " l),
    (Str.contains "## Excerpt" l); reflexivity.
Qed.

Lemma switches_dropped (l : string) : switches l = true → dropped l = true.
Proof.
  unfold switches, dropped. destruct (is_meta l), (has_marker l); done.
Qed.

Lemma kept_cons (l : string) (ls : list string) :
  kept (l :: ls) = if dropped l then kept ls else l :: kept ls.
Proof. unfold kept. simpl. by destruct (dropped l). Qed.

(** After the marker every line that is not dropped goes to the excerpt. *)
Lemma scan_after_marker (st : scan_state) (lines : list string) :
  excerpt_flag st ≠ 0%Z →
  content_ (foldl scan_step st lines) = content_ st ∧
  excerpt (foldl scan_step st lines) = excerpt st +:+ lines_text (kept lines).
Proof.
  revert st. induction lines as [|l ls IH]; intros st Hf.
  - simpl. by rewrite sapp_nil_r.
  - cbn [foldl]. rewrite kept_cons, scan_step_cases.
    destruct (dropped l); [destruct (switches l) |].
    + destruct (IH (ScanState (content_ st) (excerpt st) 1)) as [-> ->]; done.
    + by apply IH.
    + apply Z.eqb_neq in Hf as E. rewrite E.
      destruct (IH (ScanState (content_ st) (excerpt st +:+ l +:+ Str.NL)
                              (excerpt_flag st))) as [-> ->]; [done |].
      simpl. by rewrite !sapp_assoc.
Qed.

Lemma scan_before_marker (st : scan_state) (lines : list string) :
  excerpt_flag st = 0%Z →
  content_ (foldl scan_step st lines)
    = content_ st +:+ lines_text (kept (before_marker lines)) ∧
  excerpt (foldl scan_step st lines)
    = excerpt st +:+ lines_text (kept (after_marker lines)).
Proof.
  revert st. induction lines as [|l ls IH]; intros st Hf.
  - simpl. by rewrite !sapp_nil_r.
  - cbn [foldl before_marker after_marker]. rewrite scan_step_cases.
    destruct (switches l) eqn:Es.
    + rewrite (switches_dropped l Es).
      destruct (scan_after_marker (ScanState (content_ st) (excerpt st) 1) ls)
        as [-> ->]; [done |].
      simpl. by rewrite sapp_nil_r.
    + rewrite kept_cons. destruct (dropped l); [by apply IH |].
      rewrite Hf. simpl (_ =? _)%Z. cbv iota.
      destruct (IH (ScanState (content_ st +:+ l +:+ Str.NL) (excerpt st) 0))
        as [-> ->]; [done |].
      simpl. by rewrite !sapp_assoc.
Qed.

Lemma line_before_or_after (l : string) (lines : list string) :
  l ∈ lines → switches l = false →
  l ∈ before_marker lines ∨ l ∈ after_marker lines.
Proof.
  intros Hin Hs. induction lines as [|x ls IH]; [by apply elem_of_nil in Hin |].
  simpl. apply elem_of_cons in Hin as [<- | Hin].
  - rewrite Hs. left. apply elem_of_cons. by left.
  - destruct (switches x); [by right |].
    destruct (IH Hin) as [H | H]; [left | by right].
    apply elem_of_cons. by right.
Qed.

Lemma before_after_in_lines (l : string) (lines : list string) :
  l ∈ before_marker lines ∨ l ∈ after_marker lines → l ∈ lines.
Proof.
  induction lines as [|x ls IH]; simpl.
  - intros [H | H]; by apply elem_of_nil in H.
  - rewrite elem_of_cons. destruct (switches x).
    + intros [H | H]; [by apply elem_of_nil in H | by right].
    + rewrite elem_of_cons. intros [[-> | H] | H]; [by left | right ..]; auto.
Qed.

Lemma elem_of_kept (l : string) (lines : list string) :
  l ∈ kept lines ↔ l ∈ lines ∧ dropped l = false.
Proof.
  unfold kept. rewrite !list_elem_of_In, List.filter_In.
  destruct (dropped l); simpl; intuition congruence.
Qed.

(** C3, as the code has it: a line is dropped when it starts with
    "Categories: " or "Tags: " or contains "## Excerpt", and only then;
    every other line of the remaining document goes, in order and followed
    by a newline, to the body when it comes before the first line that sets
    the flag and to the excerpt when it comes after it. *)
Theorem C3_scan_drops_prefixed_and_marker_lines (markdown : string → string)
    (text : string) (lines : list string) :
  content_ (scan lines) = lines_text (kept (before_marker lines)) ∧
  excerpt (scan lines) = lines_text (kept (after_marker lines)) ∧
  (∀ l, l ∈ kept (before_marker lines) ++ kept (after_marker lines)
        ↔ l ∈ lines ∧ dropped l = false) ∧
  p_content_html (parse_text markdown text)
    = markdown (lines_text (kept (before_marker (content_lines text)))) ∧
  p_excerpt (parse_text markdown text)
    = lines_text (kept (after_marker (content_lines text))).
Proof.
  assert (H : ∀ ls, content_ (scan ls) = lines_text (kept (before_marker ls)) ∧
                    excerpt (scan ls) = lines_text (kept (after_marker ls))).
  { intros ls. unfold scan. by destruct (scan_before_marker scan_init ls) as [-> ->]. }
  unfold parse_text. cbn [p_content_html p_excerpt].
  destruct (H lines) as [-> ->]. destruct (H (content_lines text)) as [-> ->].
  split; [done |]. split; [done |]. split; [| done].
  intros l. rewrite elem_of_app, !elem_of_kept. split.
  - intros [[Hin Hd] | [Hin Hd]]; (split; [apply before_after_in_lines |]); auto.
  - intros [Hin Hd].
    assert (Hs : switches l = false).
    { destruct (switches l) eqn:E; [| done].
      apply switches_dropped in E. congruence. }
    destruct (line_before_or_after l lines Hin Hs); auto.
Qed.

(** C3 as stated fails: in "Tags: go\nTags: rust\nBody" the line
    "Tags: rust" is not the Tags metadata line ("Tags: go") and holds no
    marker, yet it is dropped from the body. *)
Lemma C3_counterexample :
  content_lines doc_two_tags = ["Tags: go"; "Tags: rust"; "Body"] ∧
  metadata_lines doc_two_tags = ["Tags: go"] ∧
  has_marker "Tags: rust" = false ∧
  content_ (scan (content_lines doc_two_tags)) = "Body" +:+ Str.NL ∧
  content_ (spec_scan doc_two_tags) = "Tags: rust" +:+ Str.NL +:+ "Body" +:+ Str.NL ∧
  scan (content_lines doc_two_tags) ≠ spec_scan doc_two_tags.
Proof.
  repeat split; try reflexivity. vm_compute. discriminate.
Qed.

(** ** The Categories and Tags lines *)

Lemma count_sapp (a : ascii) (s1 s2 : string) :
  Str.count a (s1 +:+ s2) = Str.count a s1 + Str.count a s2.
Proof. induction s1 as [|c s1 IH]; simpl; [done | rewrite IH; lia]. Qed.

Lemma complete_lines_tail (c c' : ascii) (s : string) :
  complete_lines (String c (String c' s)) = complete_lines (String c' s).
Proof. reflexivity. Qed.

(** A match cannot start inside complete lines and run past their end. *)
Lemma match_here_complete_lines (lit p rest : string) :
  Str.count Str.nl lit = 0 → p ≠ "" → complete_lines p = true →
  Re.match_here lit p = None → Re.match_here lit (p +:+ rest) = None.
Proof.
  revert p. induction lit as [|a lit IH]; intros p Hl Hp Hc Hm.
  - destruct p as [|b p]; [done |]. unfold Re.match_here in *. simpl in *.
    destruct (Ascii.eqb b Str.nl); [done |].
    destruct (Re.dot_star p); done.
  - destruct p as [|b p]; [done |]. unfold Re.match_here in *. simpl in *.
    destruct (Ascii.eqb a b) eqn:Eab; [| done].
    apply Ascii.eqb_eq in Eab as <-.
    destruct (Ascii.eqb a Str.nl) eqn:Ea; [done |]. simpl in Hl.
    destruct p as [|b' p]; [simpl in Hc; congruence |].
    apply IH; done.
Qed.

Lemma search_skips_complete_lines (lit pre rest : string) :
  Str.count Str.nl lit = 0 → complete_lines pre = true →
  Re.search lit pre = None → Re.search lit (pre +:+ rest) = Re.search lit rest.
Proof.
  intros Hl. induction pre as [|c pre IH]; intros Hc Hs; [done |].
  change (Re.search lit (String c pre)) with
    (match Re.match_here lit (String c pre) with
     | Some (g, _) => Some g
     | None => Re.search lit pre
     end) in Hs.
  change (Re.search lit (String c pre +:+ rest)) with
    (match Re.match_here lit (String c pre +:+ rest) with
     | Some (g, _) => Some g
     | None => Re.search lit (pre +:+ rest)
     end).
  destruct (Re.match_here lit (String c pre)) as [[g r]|] eqn:Em; [done |].
  rewrite match_here_complete_lines by done.
  apply IH; [| done]. destruct pre; [done |]. by rewrite complete_lines_tail in Hc.
Qed.

Lemma search_finds_line (lit pre g post : string) :
  Str.count Str.nl lit = 0 → complete_lines pre = true → Re.search lit pre = None →
  g ≠ "" → Str.count Str.nl g = 0 → at_eol post = true →
  Re.search lit (pre +:+ lit +:+ g +:+ post) = Some g.
Proof.
  intros Hl Hc Hs Hg Hn He. rewrite search_skips_complete_lines by done.
  pose proof (match_here_line lit g post Hg Hn He) as E.
  destruct (lit +:+ g +:+ post); simpl; by rewrite E.
Qed.

Lemma split_no_sep (sep : ascii) (t : string) :
  Str.count sep t = 0 → Str.split sep t = [t].
Proof.
  induction t as [|c t IH]; simpl; [done |].
  destruct (Ascii.eqb c sep); [done |]. intros H. by rewrite IH.
Qed.

Lemma split_sapp_sep (sep : ascii) (t r : string) :
  Str.count sep t = 0 →
  Str.split sep (t +:+ String sep r) = t :: Str.split sep r.
Proof.
  induction t as [|c t IH]; simpl.
  - by rewrite Ascii.eqb_refl.
  - destruct (Ascii.eqb c sep); [done |]. intros H. by rewrite IH.
Qed.

Lemma split_join (ts : list string) :
  ts ≠ [] → Forall term_ok ts → Str.split "," (Str.join "," ts) = ts.
Proof.
  induction ts as [|t ts IH]; [done |]. intros _ H.
  apply Forall_cons in H as [[Ht _] Hts].
  destruct ts as [|t' ts]; [by apply split_no_sep |].
  change (Str.join "," (t :: t' :: ts)) with (t +:+ "," +:+ Str.join "," (t' :: ts)).
  change ("," +:+ Str.join "," (t' :: ts)) with (String "," (Str.join "," (t' :: ts))).
  rewrite split_sapp_sep by done. by rewrite IH.
Qed.

Lemma join_no_newline (ts : list string) :
  Forall term_ok ts → Str.count Str.nl (Str.join "," ts) = 0.
Proof.
  induction ts as [|t ts IH]; [done |]. intros H.
  apply Forall_cons in H as [[_ Ht] Hts].
  destruct ts as [|t' ts]; [done |].
  change (Str.join "," (t :: t' :: ts)) with (t +:+ "," +:+ Str.join "," (t' :: ts)).
  rewrite !count_sapp, IH by done. rewrite Ht. reflexivity.
Qed.

(** C8: when the first match of a metadata pattern is a line
    "Categories: t1,t2,...,tn" (or "Tags: ..."), the parsed names are the
    terms in the order written, each trimmed and lowercased; for the line
    "Categories: a, B , c" that is ["a"; "b"; "c"]; without a match the list
    is empty. *)
Theorem C8_names_trimmed_lowercased_in_order (pre post : string)
    (ts : list string) :
  complete_lines pre = true → at_eol post = true →
  Forall term_ok ts → Str.join "," ts ≠ "" →
  (Re.search "Categories: " pre = None →
     parse_categories (pre +:+ "Categories: " +:+ Str.join "," ts +:+ post)
       = map (fun t => Str.lower (Str.strip t)) ts ∧
     parse_categories (pre +:+ "Categories: a, B , c" +:+ post) = ["a"; "b"; "c"]) ∧
  (Re.search "Tags: " pre = None →
     parse_tags (pre +:+ "Tags: " +:+ Str.join "," ts +:+ post)
       = map (fun t => Str.lower (Str.strip t)) ts ∧
     parse_tags (pre +:+ "Tags: a, B , c" +:+ post) = ["a"; "b"; "c"]) ∧
  (∀ text, Re.search "Categories: " text = None → parse_categories text = []) ∧
  (∀ text, Re.search "Tags: " text = None → parse_tags text = []).
Proof.
  intros Hc He Hts Hj.
  assert (Hne : ts ≠ []) by (intros ->; done).
  assert (G : ∀ lit, Str.count Str.nl lit = 0 → Re.search lit pre = None →
    parse_names lit (pre +:+ lit +:+ Str.join "," ts +:+ post)
      = map (fun t => Str.lower (Str.strip t)) ts ∧
    parse_names lit (pre +:+ lit +:+ "a, B , c" +:+ post) = ["a"; "b"; "c"]).
  { intros lit Hl Hs. unfold parse_names. split.
    - rewrite search_finds_line by auto using join_no_newline.
      by rewrite split_join.
    - by rewrite search_finds_line. }
  split; [intros Hs; by apply (G "Categories: ") |].
  split; [intros Hs; by apply (G "Tags: ") |].
  split; intros text Hs; unfold parse_categories, parse_tags, parse_names;
    by rewrite Hs.
Qed.

Lemma C8_names_trimmed_lowercased_in_order_witness :
  parse_categories doc_abc = ["a"; "b"; "c"].
Proof.
  refine (proj1 (proj1 (C8_names_trimmed_lowercased_in_order
    ("# T" +:+ Str.NL) (Str.NL +:+ "Body") ["a"; " B "; " c"] _ _ _ _) _)).
  - reflexivity.
  - reflexivity.
  - repeat constructor.
  - discriminate.
  - reflexivity.
Defined.

(** ** Fenced code blocks *)

(** A document that is one fenced code block reaches the renderer as it is
    written, followed by a newline; what the block becomes is the
    renderer's work. *)
Lemma fenced_block_reaches_renderer (markdown : string → string) :
  p_content_html
    (parse_text markdown ("```" +:+ Str.NL +:+ "code" +:+ Str.NL +:+ "```"))
  = markdown ("```" +:+ Str.NL +:+ "code" +:+ Str.NL +:+ "```" +:+ Str.NL).
Proof. reflexivity. Qed.


(** * Further properties of the script *)

(** ** [fetch_terms]: the dict comprehension *)

Lemma terms_dict_entries (acc : gmap string json) (items : list json)
    (kvs : list (string * json)) :
  Forall2 (fun item kv => term_entry item = inr kv) items kvs →
  terms_dict acc items = inr (dict_of acc kvs).
Proof.
  intros H. revert acc. induction H as [|item kv items kvs E _ IH]; intros acc.
  - done.
  - simpl. rewrite E. simpl. apply IH.
Qed.

Lemma dict_of_lookup_absent (acc : gmap string json) kvs (k : string) :
  k ∉ kvs.*1 → dict_of acc kvs !! k = acc !! k.
Proof.
  revert acc. induction kvs as [|[k' v'] kvs IH]; intros acc Hk; [done |].
  simpl in *. apply not_elem_of_cons in Hk as [Hne Hk].
  unfold dict_of in *. simpl. rewrite IH by done. by rewrite lookup_insert_ne.
Qed.

Lemma dict_of_app (acc : gmap string json) l1 l2 :
  dict_of acc (l1 ++ l2) = dict_of (dict_of acc l1) l2.
Proof. unfold dict_of. apply foldl_app. Qed.

(** X1: The map built by [fetch_terms] from well-formed items holds, for each
    key, the identifier of the last item with that key: a later term
    replaces an earlier one of the same lowercased name, and a key no item
    has is absent. *)
Theorem terms_last_entry_wins (items : list json) (l1 l2 : list (string * json))
    (k : string) (v : json) :
  Forall2 (fun item kv => term_entry item = inr kv) items (l1 ++ (k, v) :: l2) →
  k ∉ l2.*1 →
  ∃ m, terms_of_json (JArr items) = inr m ∧ m !! k = Some v ∧
       ∀ k', k' ∉ (l1 ++ (k, v) :: l2).*1 → m !! k' = None.
Proof.
  intros H Hk. exists (dict_of ∅ (l1 ++ (k, v) :: l2)).
  split; [exact (terms_dict_entries ∅ items _ H) |]. split.
  - rewrite dict_of_app. change ((k, v) :: l2) with ([(k, v)] ++ l2).
    rewrite dict_of_app, dict_of_lookup_absent by done.
    apply lookup_insert_eq.
  - intros k' Hk'. by rewrite dict_of_lookup_absent.
Qed.

Lemma terms_last_entry_wins_witness :
  ∃ m, terms_of_json (JArr [term_json 1 "News"; term_json 5 "NEWS"; term_json 2 "Go"])
         = inr m ∧ m !! "news" = Some (JNum 5) ∧
       ∀ k', k' ∉ [("news", JNum 1); ("news", JNum 5); ("go", JNum 2)].*1 →
             m !! k' = None.
Proof.
  refine (terms_last_entry_wins
    [term_json 1 "News"; term_json 5 "NEWS"; term_json 2 "Go"]
    [("news", JNum 1)] [("go", JNum 2)] "news" (JNum 5) _ _).
  - repeat constructor.
  - vm_compute. intros H. apply elem_of_cons in H as [H | H]; [discriminate |].
    by apply elem_of_nil in H.
Defined.

Lemma lower_char_idemp (c : ascii) : Str.lower_char (Str.lower_char c) = Str.lower_char c.
Proof. destruct c as [[] [] [] [] [] [] [] []]; reflexivity. Qed.

Lemma lower_idemp (s : string) : Str.lower (Str.lower s) = Str.lower s.
Proof.
  induction s as [|c s IH]; simpl; [done |]. by rewrite lower_char_idemp, IH.
Qed.

Lemma term_entry_key_lower (item : json) (kv : string * json) :
  term_entry item = inr kv → Str.lower kv.1 = kv.1.
Proof.
  unfold term_entry, rbind. destruct (getitem item "name") as [e|name]; [done |].
  destruct name; try done. destruct (getitem item "id"); [done |].
  intros [= <-]. apply lower_idemp.
Qed.

Lemma terms_dict_keys_lower (acc m : gmap string json) (items : list json) :
  (∀ k, is_Some (acc !! k) → Str.lower k = k) →
  terms_dict acc items = inr m →
  ∀ k, is_Some (m !! k) → Str.lower k = k.
Proof.
  revert acc. induction items as [|item items IH]; intros acc Hacc.
  - by intros [= <-].
  - simpl. destruct (term_entry item) as [e|kv] eqn:E; [done |]. simpl.
    apply IH. intros k. destruct (decide (kv.1 = k)) as [<- | Hne].
    + intros _. by apply (term_entry_key_lower item).
    + rewrite lookup_insert_ne by done. apply Hacc.
Qed.

(** X2: Every key of a map returned by [fetch_terms] is lowercase, whatever the
    remote system answered. *)
Theorem fetched_keys_are_lowercase (w : world) (term_type : string) log log'
    (m : gmap string json) (k : string) :
  fetch_terms w term_type log = (inr m, log') →
  is_Some (m !! k) → Str.lower k = k.
Proof.
  rewrite fetch_terms_run. intros [= H _]. unfold terms_result, rbind in H.
  destruct (decoded _) as [e|j]; [done |]. unfold terms_of_json, rbind in H.
  destruct (iter_json j) as [e|items]; [done |].
  apply (terms_dict_keys_lower ∅ m items); [| done].
  intros k'. rewrite lookup_empty. by intros [? ?].
Qed.

Lemma fetched_keys_are_lowercase_witness : Str.lower "news" = "news".
Proof.
  refine (fetched_keys_are_lowercase
    (w_terms (ok_json (JArr [term_json 1 "News"])) None) "categories" []
    [ReqTerms "categories"] {["news" := JNum 1]} "news" _ _).
  - reflexivity.
  - vm_compute. eauto.
Defined.

Lemma terms_dict_first_failure (acc : gmap string json) (pre post : list json)
    (item : json) (e : exn) :
  Forall (fun it => ∃ kv, term_entry it = inr kv) pre →
  term_entry item = inl e →
  terms_dict acc (pre ++ item :: post) = inl e.
Proof.
  intros H He. revert acc. induction H as [|it pre [kv Hkv] _ IH]; intros acc.
  - simpl. by rewrite He.
  - simpl. rewrite Hkv. simpl. apply IH.
Qed.

(** X3: A listing with an item that cannot be read (no "name", a name that is
    not a string, no "id") makes [fetch_terms] raise at the first such item,
    and a run ends there: for the categories listing, after two requests. *)
Theorem malformed_term_aborts_run (markdown : string → string) (w : world)
    (file_path : string) (token : json) (r : response) (pre post : list json)
    (item : json) (e : exn) :
  token_result w = inr token →
  terms_endpoint w "categories" = Some r →
  http_failure (status_code r) = false →
  body r = Some (JArr (pre ++ item :: post)) →
  Forall (fun it => ∃ kv, term_entry it = inr kv) pre →
  term_entry item = inl e →
  fetch_terms w "categories" [token_request w]
    = (inl e, [token_request w; ReqTerms "categories"]) ∧
  run markdown w file_path = (inl e, [token_request w; ReqTerms "categories"]).
Proof.
  intros Ht Hr Hs Hb Hpre He.
  assert (E : terms_result w "categories" = inl e).
  { unfold terms_result, decoded. rewrite Hr, Hs, Hb. simpl.
    by apply terms_dict_first_failure. }
  split; [by rewrite fetch_terms_run, E |]. by rewrite run_cases, Ht, E.
Qed.

Lemma malformed_term_aborts_run_witness :
  run render_paragraph
    (w_terms (ok_json (JArr [term_json 1 "news"; JObj [("id", JNum 3)];
                             term_json 4 "misc"])) None) "post.md"
  = (inl (KeyError "name"), [ReqToken "user" "secret"; ReqTerms "categories"]).
Proof.
  refine (proj2 (malformed_term_aborts_run render_paragraph
    (w_terms (ok_json (JArr [term_json 1 "news"; JObj [("id", JNum 3)];
                             term_json 4 "misc"])) None)
    "post.md" (JStr "t0") (Response 200 (Some (JArr [term_json 1 "news";
       JObj [("id", JNum 3)]; term_json 4 "misc"])))
    [term_json 1 "news"] [term_json 4 "misc"] (JObj [("id", JNum 3)])
    (KeyError "name") _ _ _ _ _ _)); try reflexivity.
  repeat constructor. by exists ("news", JNum 1).
Defined.

(** ** [get_jwt_token] *)

(** X4: [get_jwt_token] returns a token exactly when the remote system answers,
    with a status outside 400..599, a JSON body that is an object with a
    "token" entry; it then returns that entry, and the token request is the
    one request it has sent. *)
Theorem get_jwt_token_returns (w : world) log log' (token : json) :
  get_jwt_token w log = (inr token, log') ↔
  log' = log ++ [token_request w] ∧
  ∃ r j, token_endpoint w = Some r ∧ http_failure (status_code r) = false ∧
         body r = Some j ∧ getitem j "token" = inr token.
Proof.
  rewrite get_jwt_token_run. unfold token_result, decoded, rbind. split.
  - intros [= H <-]. split; [done |].
    destruct (token_endpoint w) as [r|]; [| done].
    destruct (http_failure (status_code r)) eqn:Es; [done |].
    destruct (body r) as [j|] eqn:Eb; [| done]. by exists r, j.
  - intros (-> & r & j & -> & -> & -> & ->). done.
Qed.

(** ** The order of the requests *)


(** X6: A run that returns a link has sent all four requests, and the link is
    the "link" entry of the answer to the post request. *)
Theorem run_success_posted (markdown : string → string) (w : world)
    (file_path : string) (link : json) (log : list request) :
  run markdown w file_path = (inr link, log) →
  ∃ token data, log = preamble w ++ [ReqPost token data] ∧
                post_result w token data = inr link ∧
                get_jwt_token w [] = (inr token, [token_request w]).
Proof.
  rewrite run_cases, get_jwt_token_run. unfold preamble.
  destruct (token_result w) as [e|token]; [done |].
  destruct (terms_result w "categories") as [e|cm]; [done |].
  destruct (terms_result w "tags") as [e|tm]; [done |].
  destruct (files w file_path) as [text|]; [| done].
  simpl. intros [= H <-]. by eexists _, _.
Qed.

Lemma run_success_posted_witness :
  ∃ token data,
    (run render_paragraph w_hello "post.md").2 = preamble w_hello ++ [ReqPost token data] ∧
    post_result w_hello token data = inr (JStr "https://blog/hello") ∧
    get_jwt_token w_hello [] = (inr token, [token_request w_hello]).
Proof.
  exact (run_success_posted render_paragraph w_hello "post.md"
    (JStr "https://blog/hello") _ eq_refl).
Defined.

(** X7: The document is read after the three requests: with a path that cannot
    be read the run still authenticates and fetches both listings, then
    raises, and no post is sent. *)
Theorem unreadable_file_fails_after_fetches (markdown : string → string)
    (w : world) (file_path : string) (token : json)
    (category_map tag_map : gmap string json) :
  token_result w = inr token →
  terms_result w "categories" = inr category_map →
  terms_result w "tags" = inr tag_map →
  files w file_path = None →
  run markdown w file_path = (inl OSError, preamble w).
Proof. intros Ht Hc Hg Hf. by rewrite run_cases, Ht, Hc, Hg, Hf. Qed.

Lemma unreadable_file_fails_after_fetches_witness :
  run render_paragraph w_no_file "missing.md"
  = (inl OSError, [ReqToken "user" "secret"; ReqTerms "categories"; ReqTerms "tags"]).
Proof.
  apply (unreadable_file_fails_after_fetches render_paragraph w_no_file
    "missing.md" (JStr "t0") {["news" := JNum 1]} {["go" := JNum 2]});
    reflexivity.
Defined.

(** X8: A listing that fails ends the run before the next request: a failed
    categories listing leaves the tags listing unsent, a failed tags listing
    leaves the document unread and the post unsent. *)
Theorem failed_listing_aborts (markdown : string → string) (w : world)
    (file_path : string) (token : json) (e : exn) :
  token_result w = inr token →
  (terms_result w "categories" = inl e →
     run markdown w file_path = (inl e, take 2 (preamble w))) ∧
  (∀ category_map, terms_result w "categories" = inr category_map →
     terms_result w "tags" = inl e →
     run markdown w file_path = (inl e, preamble w)).
Proof.
  intros Ht. split.
  - intros Hc. by rewrite run_cases, Ht, Hc.
  - intros cm Hc Hg. by rewrite run_cases, Ht, Hc, Hg.
Qed.

Lemma failed_listing_aborts_witness :
  run render_paragraph (w_terms (Some (Response 500 None)) None) "post.md"
  = (inl (HTTPError 500), [ReqToken "user" "secret"; ReqTerms "categories"]).
Proof.
  apply (proj1 (failed_listing_aborts render_paragraph
    (w_terms (Some (Response 500 None)) None) "post.md" (JStr "t0")
    (HTTPError 500) eq_refl)).
  reflexivity.
Defined.

(** X9: When the answer to the post request is a success without a "link"
    entry, the run raises [KeyError] although the post request has been sent
    and accepted. *)
Theorem missing_link_fails_after_post (markdown : string → string) (w : world)
    (file_path : string) (token : json) (category_map tag_map : gmap string json)
    (text : string) (r : response) (fields : list (string * json)) :
  token_result w = inr token →
  terms_result w "categories" = inr category_map →
  terms_result w "tags" = inr tag_map →
  files w file_path = Some text →
  let data := build_payload (parse_text markdown text) category_map tag_map in
  posts_endpoint w token data = Some r →
  http_failure (status_code r) = false →
  body r = Some (JObj fields) →
  "link" ∉ fields.*1 →
  run markdown w file_path
    = (inl (KeyError "link"), preamble w ++ [ReqPost token data]).
Proof.
  intros Ht Hc Hg Hf data Hr Hs Hb Hl.
  rewrite run_cases, Ht, Hc, Hg, Hf. fold data. unfold preamble. simpl.
  f_equal. unfold post_result, decoded. rewrite Hr, Hs, Hb. simpl.
  destruct (list_find _ fields) as [[i kv]|] eqn:E; [| done].
  apply list_find_Some in E as (Hi & Hk & _). exfalso. apply Hl.
  rewrite <- Hk. apply list_elem_of_fmap. exists kv. split; [done |].
  by apply list_elem_of_lookup_2 in Hi.
Qed.

Lemma missing_link_fails_after_post_witness :
  run render_paragraph w_no_link "post.md"
  = (inl (KeyError "link"),
     preamble w_no_link ++
     [ReqPost (JStr "t0")
        (build_payload (parse_text render_paragraph doc_hello)
           {["news" := JNum 1]} {["go" := JNum 2]})]).
Proof.
  refine (missing_link_fails_after_post render_paragraph w_no_link "post.md"
    (JStr "t0") {["news" := JNum 1]} {["go" := JNum 2]} doc_hello
    (Response 201 (Some (JObj [("id", JNum 9)]))) [("id", JNum 9)]
    _ _ _ _ _ _ _ _); try reflexivity.
  vm_compute. intros H. apply elem_of_cons in H as [H | H]; [discriminate |].
  by apply elem_of_nil in H.
Defined.

(** ** [parse_markdown]: the title *)

Lemma search_bol_cons (lit : string) (bol : bool) (c : ascii) (s : string) :
  Re.search_bol lit bol (String c s) =
  match (if bol then Re.match_here lit (String c s) else None) with
  | Some (g, _) => Some g
  | None => Re.search_bol lit (Ascii.eqb c Str.nl) s
  end.
Proof. reflexivity. Qed.

Lemma match_here_nil (lit : string) : Re.match_here lit "" = None.
Proof. by destruct lit. Qed.

Lemma search_bol_skips_complete_lines (lit pre rest : string) (bol : bool) :
  Str.count Str.nl lit = 0 → pre ≠ "" → complete_lines pre = true →
  Re.search_bol lit bol pre = None →
  Re.search_bol lit bol (pre +:+ rest) = Re.search_bol lit true rest.
Proof.
  intros Hl. revert bol. induction pre as [|c pre IH]; intros bol Hne Hc Hs;
    [done |].
  change (String c pre +:+ rest) with (String c (pre +:+ rest)).
  rewrite search_bol_cons in Hs |- *.
  change (String c (pre +:+ rest)) with (String c pre +:+ rest).
  assert (Hm : (if bol then Re.match_here lit (String c pre +:+ rest) else None)
               = None).
  { destruct bol; [| done].
    destruct (Re.match_here lit (String c pre)) as [[g r]|] eqn:Em; [done |].
    by apply match_here_complete_lines. }
  rewrite Hm.
  assert (Hs' : Re.search_bol lit (Ascii.eqb c Str.nl) pre = None).
  { destruct (if bol then Re.match_here lit (String c pre) else None)
      as [[g r]|]; done. }
  destruct pre as [|c' pre'].
  - simpl in Hc. by rewrite Hc.
  - apply IH; [done | | done]. by rewrite complete_lines_tail in Hc.
Qed.

Lemma search_bol_at_heading (lit g post : string) :
  g ≠ "" → Str.count Str.nl g = 0 → at_eol post = true →
  Re.search_bol lit true (lit +:+ g +:+ post) = Some g.
Proof.
  intros Hg Hn He. pose proof (match_here_line lit g post Hg Hn He) as E.
  destruct (lit +:+ g +:+ post); simpl; by rewrite E.
Qed.

(** X10: The title is the rest of the first heading line: when no line of [pre]
    is a heading, the document [pre] "# t" [post] has title [t]. *)
Theorem title_is_first_heading (pre t post : string) :
  complete_lines pre = true → Re.search_bol "# " true pre = None →
  t ≠ "" → Str.count Str.nl t = 0 → at_eol post = true →
  parse_title (pre +:+ "# " +:+ t +:+ post) = t.
Proof.
  intros Hc Hs Ht Hn He. unfold parse_title.
  destruct pre as [|c pre].
  - change ("" +:+ "# " +:+ t +:+ post) with ("# " +:+ t +:+ post).
    by rewrite search_bol_at_heading.
  - rewrite search_bol_skips_complete_lines by done.
    by rewrite search_bol_at_heading.
Qed.

Lemma title_is_first_heading_witness :
  parse_title doc_late_title = "Hello".
Proof.
  apply (title_is_first_heading ("Intro" +:+ Str.NL) "Hello" (Str.NL +:+ "Body" +:+ Str.NL));
    try reflexivity; discriminate.
Defined.

Lemma split_nonempty (sep : ascii) (s : string) : Str.split sep s ≠ [].
Proof.
  destruct s as [|c s]; simpl; [done |].
  destruct (Ascii.eqb c sep); [done |]. by destruct (Str.split sep s).
Qed.

Lemma startswith_strip_lit (lit s r : string) :
  Re.strip_lit lit s = Some r → Str.startswith lit s = true.
Proof.
  revert s. induction lit as [|a lit IH]; intros s; [by destruct s |].
  destruct s as [|b s]; simpl; [done |].
  destruct (Ascii.eqb a b); [apply IH | done].
Qed.

Lemma startswith_first_line (lit s l0 : string) (ls : list string) :
  Str.count Str.nl lit = 0 → Str.split Str.nl s = l0 :: ls →
  Str.startswith lit s = true → Str.startswith lit l0 = true.
Proof.
  revert s l0 ls. induction lit as [|a lit IH]; intros s l0 ls Hl Hsp Hst;
    [by destruct l0 |].
  destruct s as [|b s]; [done |]. simpl in Hst, Hl, Hsp.
  destruct (Ascii.eqb a b) eqn:Eab; [| done].
  apply Ascii.eqb_eq in Eab as <-.
  destruct (Ascii.eqb a Str.nl) eqn:Ea; [done |].
  destruct (Str.split Str.nl s) as [|h t] eqn:Es; [by apply split_nonempty in Es |].
  injection Hsp as <- <-. simpl. rewrite Ascii.eqb_refl. simpl.
  by apply (IH s h t).
Qed.

Lemma search_bol_no_heading (lit s l0 : string) (ls : list string) (bol : bool) :
  Str.count Str.nl lit = 0 → Str.split Str.nl s = l0 :: ls →
  (bol = true → Str.startswith lit l0 = false) →
  Forall (fun l => Str.startswith lit l = false) ls →
  Re.search_bol lit bol s = None.
Proof.
  intros Hl. revert bol l0 ls. induction s as [|c s IH]; intros bol l0 ls Hsp H0 Hls.
  - simpl. rewrite match_here_nil. by destruct bol.
  - rewrite search_bol_cons.
    assert (Hm : (if bol then Re.match_here lit (String c s) else None) = None).
    { destruct bol; [| done].
      destruct (Re.match_here lit (String c s)) as [[g r]|] eqn:Em; [| done].
      unfold Re.match_here in Em.
      destruct (Re.strip_lit lit (String c s)) as [r'|] eqn:Est; [| done].
      apply startswith_strip_lit in Est.
      rewrite (startswith_first_line lit (String c s) l0 ls) in H0 by done.
      by specialize (H0 eq_refl). }
    rewrite Hm. simpl in Hsp. destruct (Ascii.eqb c Str.nl).
    + injection Hsp as <- <-.
      destruct (Str.split Str.nl s) as [|h t] eqn:Es;
        [by apply split_nonempty in Es |].
      apply Forall_cons in Hls as [Hh Ht]. by apply (IH true h t).
    + destruct (Str.split Str.nl s) as [|h t] eqn:Es;
        [by apply split_nonempty in Es |].
      injection Hsp as <- <-. by apply (IH false h t).
Qed.

(** X11: A document none of whose lines starts with "# " gets the placeholder
    title. *)
Theorem no_heading_gives_placeholder (text : string) :
  Forall (fun l => Str.startswith "# " l = false) (Str.split Str.nl text) →
  parse_title text = "No title".
Proof.
  intros H. unfold parse_title.
  destruct (Str.split Str.nl text) as [|l0 ls] eqn:Es;
    [by apply split_nonempty in Es |].
  apply Forall_cons in H as [H0 Hls].
  by rewrite (search_bol_no_heading "# " text l0 ls true).
Qed.

Lemma no_heading_gives_placeholder_witness :
  parse_title doc_two_tags = "No title".
Proof.
  apply no_heading_gives_placeholder. vm_compute. repeat constructor.
Defined.

Lemma dot_star_group (s g r : string) :
  Re.dot_star s = (g, r) → Str.count Str.nl g = 0.
Proof.
  revert g r. induction s as [|c s IH]; intros g r; simpl.
  - by intros [= <- _].
  - destruct (Ascii.eqb c Str.nl) eqn:E; [by intros [= <- _] |].
    destruct (Re.dot_star s) as [g' r']. intros [= <- _]. simpl. rewrite E.
    by apply (IH g' r').
Qed.

Lemma match_here_group (lit s g r : string) :
  Re.match_here lit s = Some (g, r) → g ≠ "" ∧ Str.count Str.nl g = 0.
Proof.
  unfold Re.match_here. destruct (Re.strip_lit lit s) as [r'|]; [| done].
  destruct (Re.dot_star r') as [g' r''] eqn:E. destruct g' as [|c g']; [done |].
  intros [= <- _]. split; [done |]. by apply (dot_star_group r' _ r'').
Qed.

Lemma search_bol_group (lit s g : string) (bol : bool) :
  Re.search_bol lit bol s = Some g → g ≠ "" ∧ Str.count Str.nl g = 0.
Proof.
  revert bol. induction s as [|c s IH]; intros bol.
  - simpl. rewrite match_here_nil. by destruct bol.
  - rewrite search_bol_cons.
    destruct bol; [| apply IH].
    destruct (Re.match_here lit (String c s)) as [[g' r]|] eqn:Em; [| apply IH].
    intros [= <-]. by apply (match_here_group lit (String c s) g' r).
Qed.

(** X12: The title is never empty and never holds a newline, whatever the
    document. *)
Theorem title_is_one_nonempty_line (text : string) :
  parse_title text ≠ "" ∧ Str.count Str.nl (parse_title text) = 0.
Proof.
  unfold parse_title. destruct (Re.search_bol "# " true text) as [g|] eqn:E.
  - by apply (search_bol_group "# " text g true).
  - done.
Qed.

(** ** [parse_markdown]: category and tag names *)

Lemma isspace_lower_char (c : ascii) : Str.isspace (Str.lower_char c) = Str.isspace c.
Proof. destruct c as [[] [] [] [] [] [] [] []]; reflexivity. Qed.

Lemma lower_char_keeps_comma (c : ascii) :
  Ascii.eqb (Str.lower_char c) "," = Ascii.eqb c ",".
Proof. destruct c as [[] [] [] [] [] [] [] []]; reflexivity. Qed.

Lemma lower_char_keeps_newline (c : ascii) :
  Ascii.eqb (Str.lower_char c) Str.nl = Ascii.eqb c Str.nl.
Proof. destruct c as [[] [] [] [] [] [] [] []]; reflexivity. Qed.

Lemma lower_char_keeps_amp (c : ascii) :
  Ascii.eqb (Str.lower_char c) "&" = Ascii.eqb c "&".
Proof. destruct c as [[] [] [] [] [] [] [] []]; reflexivity. Qed.

Lemma count_lower (a : ascii) (s : string) :
  (∀ c, Ascii.eqb (Str.lower_char c) a = Ascii.eqb c a) →
  Str.count a (Str.lower s) = Str.count a s.
Proof.
  intros H. induction s as [|c s IH]; simpl; [done |]. by rewrite H, IH.
Qed.

Lemma count_lstrip_le (a : ascii) (s : string) :
  Str.count a (Str.lstrip s) ≤ Str.count a s.
Proof.
  induction s as [|c s IH]; simpl; [done |].
  destruct (Str.isspace c); simpl; lia.
Qed.

Lemma count_rstrip_le (a : ascii) (s : string) :
  Str.count a (Str.rstrip s) ≤ Str.count a s.
Proof.
  induction s as [|c s IH]; simpl; [done |].
  destruct (Str.rstrip s) as [|d r].
  - destruct (Str.isspace c); simpl; lia.
  - simpl in *. lia.
Qed.

Lemma count_strip_le (a : ascii) (s : string) :
  Str.count a (Str.strip s) ≤ Str.count a s.
Proof.
  unfold Str.strip. pose proof (count_rstrip_le a (Str.lstrip s)).
  pose proof (count_lstrip_le a s). lia.
Qed.

Lemma lstrip_lower (s : string) : Str.lstrip (Str.lower s) = Str.lower (Str.lstrip s).
Proof.
  induction s as [|c s IH]; simpl; [done |]. rewrite isspace_lower_char.
  by destruct (Str.isspace c).
Qed.

Lemma rstrip_lower (s : string) : Str.rstrip (Str.lower s) = Str.lower (Str.rstrip s).
Proof.
  induction s as [|c s IH]; simpl; [done |]. rewrite IH, isspace_lower_char.
  destruct (Str.rstrip s); simpl; [by destruct (Str.isspace c) | done].
Qed.

Lemma strip_lower (s : string) : Str.strip (Str.lower s) = Str.lower (Str.strip s).
Proof. unfold Str.strip. by rewrite lstrip_lower, rstrip_lower. Qed.

Lemma rstrip_idemp (s : string) : Str.rstrip (Str.rstrip s) = Str.rstrip s.
Proof.
  induction s as [|c s IH]; simpl; [done |].
  destruct (Str.rstrip s) as [|d r] eqn:E.
  - destruct (Str.isspace c) eqn:Ec; simpl; [done | by rewrite Ec].
  - change (Str.rstrip (String c (String d r)))
      with (match Str.rstrip (String d r) with
            | EmptyString => if Str.isspace c then EmptyString else String c EmptyString
            | r' => String c r'
            end).
    by rewrite IH.
Qed.

Lemma lstrip_rstrip_lstrip (s : string) :
  Str.lstrip (Str.rstrip (Str.lstrip s)) = Str.rstrip (Str.lstrip s).
Proof.
  induction s as [|c s IH]; simpl; [done |].
  destruct (Str.isspace c) eqn:Ec; [done |]. simpl.
  destruct (Str.rstrip s); rewrite ?Ec; simpl; by rewrite Ec.
Qed.

Lemma strip_idemp (s : string) : Str.strip (Str.strip s) = Str.strip s.
Proof. unfold Str.strip. by rewrite lstrip_rstrip_lstrip, rstrip_idemp. Qed.

Lemma split_pieces (sep a : ascii) (s p : string) :
  p ∈ Str.split sep s → Str.count sep p = 0 ∧ Str.count a p ≤ Str.count a s.
Proof.
  revert p. induction s as [|c s IH]; intros p; simpl.
  - intros H. apply list_elem_of_singleton in H as ->. done.
  - destruct (Ascii.eqb c sep) eqn:Ec.
    + intros H. apply elem_of_cons in H as [-> | H]; [simpl; lia |].
      destruct (IH p H). lia.
    + destruct (Str.split sep s) as [|h t] eqn:Es;
        [by apply split_nonempty in Es |].
      intros H. apply elem_of_cons in H as [-> | H].
      * destruct (IH h) as [H1 H2]; [by left |]. simpl. rewrite Ec. lia.
      * destruct (IH p) as [H1 H2]; [by right |]. lia.
Qed.

Lemma search_group (lit s g : string) :
  Re.search lit s = Some g → g ≠ "" ∧ Str.count Str.nl g = 0.
Proof.
  induction s as [|c s IH].
  - simpl. by rewrite match_here_nil.
  - change (Re.search lit (String c s)) with
      (match Re.match_here lit (String c s) with
       | Some (g, _) => Some g
       | None => Re.search lit s
       end).
    destruct (Re.match_here lit (String c s)) as [[g' r]|] eqn:Em; [| apply IH].
    intros [= <-]. by apply (match_here_group lit (String c s) g' r).
Qed.

(** X13: Every parsed category or tag name is in normal form: lowercase, without
    blanks at either end, and free of commas and newlines. *)
Theorem parsed_names_are_normal (text n : string) :
  n ∈ parse_categories text ++ parse_tags text →
  Str.lower n = n ∧ Str.strip n = n ∧
  Str.count "," n = 0 ∧ Str.count Str.nl n = 0.
Proof.
  assert (G : ∀ lit, n ∈ parse_names lit text →
    Str.lower n = n ∧ Str.strip n = n ∧
    Str.count "," n = 0 ∧ Str.count Str.nl n = 0).
  { intros lit. unfold parse_names.
    destruct (Re.search lit text) as [g|] eqn:Es;
      [| intros H; by apply elem_of_nil in H].
    intros H. apply list_elem_of_fmap in H as (p & -> & Hp).
    apply search_group in Es as [_ Hg].
    destruct (split_pieces "," "," g p Hp) as [Hc _].
    destruct (split_pieces "," Str.nl g p Hp) as [_ Hn].
    pose proof (count_strip_le "," p). pose proof (count_strip_le Str.nl p).
    split; [apply lower_idemp |].
    split; [by rewrite strip_lower, strip_idemp |].
    rewrite !count_lower
      by (apply lower_char_keeps_comma || apply lower_char_keeps_newline).
    lia. }
  intros H. apply elem_of_app in H as [H | H]; by apply (G _ H).
Qed.

Lemma parsed_names_are_normal_witness :
  Str.lower "b" = "b" ∧ Str.strip "b" = "b" ∧
  Str.count "," "b" = 0 ∧ Str.count Str.nl "b" = 0.
Proof.
  apply (parsed_names_are_normal doc_abc "b").
  vm_compute. apply elem_of_cons. right. apply elem_of_cons. by left.
Defined.

(** ** [parse_markdown]: body and excerpt *)

Lemma no_switch_before_after (lines : list string) :
  Forall (fun l => switches l = false) lines →
  before_marker lines = lines ∧ after_marker lines = [].
Proof.
  induction 1 as [|l ls Hl _ [IH1 IH2]]; [done |].
  simpl. rewrite Hl. by rewrite IH1, IH2.
Qed.

Lemma no_marker_before_after (lines : list string) :
  Forall (fun l => has_marker l = false) lines →
  before_marker lines = lines ∧ after_marker lines = [].
Proof.
  intros H. apply no_switch_before_after.
  eapply Forall_impl; [exact H |]. intros l Hl. unfold switches.
  rewrite Hl. by destruct (is_meta l).
Qed.

(** X14: Without a line that holds the marker the excerpt is empty and every
    line that is not dropped goes to the body. *)
Theorem no_marker_no_excerpt (lines : list string) :
  Forall (fun l => has_marker l = false) lines →
  excerpt (scan lines) = "" ∧ content_ (scan lines) = lines_text (kept lines).
Proof.
  intros H. destruct (no_marker_before_after lines H) as [Hb Ha].
  unfold scan. destruct (scan_before_marker scan_init lines) as [-> ->]; [done |].
  by rewrite Hb, Ha.
Qed.

Lemma no_marker_no_excerpt_witness :
  excerpt (scan (content_lines doc_two_tags)) = "" ∧
  content_ (scan (content_lines doc_two_tags))
    = lines_text (kept (content_lines doc_two_tags)).
Proof.
  apply no_marker_no_excerpt. vm_compute. repeat constructor.
Defined.

Lemma lines_text_split (s : string) :
  lines_text (Str.split Str.nl s) = s +:+ Str.NL.
Proof.
  induction s as [|c s IH]; [done |]. simpl.
  destruct (Ascii.eqb c Str.nl) eqn:E.
  - apply Ascii.eqb_eq in E as ->. simpl. by rewrite IH.
  - destruct (Str.split Str.nl s) as [|h t] eqn:Es;
      [by apply split_nonempty in Es |].
    simpl in *. by rewrite IH.
Qed.

Lemma kept_all (lines : list string) :
  Forall (fun l => dropped l = false) lines → kept lines = lines.
Proof.
  induction 1 as [|l ls Hl _ IH]; [done |]. rewrite kept_cons, Hl. by rewrite IH.
Qed.

(** X15: For a document without metadata lines and without the marker, the body
    handed to the renderer is the remaining text, stripped, followed by one
    newline, and the excerpt is empty. *)
Theorem plain_document_body (markdown : string → string) (text : string) :
  Forall (fun l => dropped l = false) (content_lines text) →
  p_content_html (parse_text markdown text) = markdown (content_md text +:+ Str.NL) ∧
  p_excerpt (parse_text markdown text) = "".
Proof.
  intros H. unfold parse_text. cbn [p_content_html p_excerpt].
  assert (Hm : Forall (fun l => has_marker l = false) (content_lines text)).
  { eapply Forall_impl; [exact H |]. intros l Hl. unfold dropped in Hl.
    by destruct (is_meta l), (has_marker l). }
  destruct (no_marker_before_after _ Hm) as [Hb Ha].
  unfold scan.
  destruct (scan_before_marker scan_init (content_lines text)) as [-> ->]; [done |].
  rewrite Hb, Ha, kept_all by done. simpl.
  unfold content_lines. by rewrite lines_text_split.
Qed.

Lemma plain_document_body_witness :
  p_content_html (parse_text render_paragraph doc_plain)
    = render_paragraph (content_md doc_plain +:+ Str.NL) ∧
  p_excerpt (parse_text render_paragraph doc_plain) = "".
Proof.
  apply plain_document_body. vm_compute. repeat constructor.
Defined.

Lemma all_space_lstrip (s : string) : all_space s = true → Str.lstrip s = "".
Proof.
  unfold all_space. induction s as [|c s IH]; simpl; [done |].
  destruct (Str.isspace c); [apply IH | done].
Qed.

Lemma all_space_sub_head (s : string) : all_space s = true → Re.sub_head "# " s = s.
Proof.
  unfold Re.sub_head, Re.match_here. destruct s as [|c s]; [done |]. intros H.
  change (Re.strip_lit "# " (String c s))
    with (if Ascii.eqb "#" c then Re.strip_lit " " s else None).
  destruct (Ascii.eqb "#" c) eqn:E; [| done].
  apply Ascii.eqb_eq in E as <-. done.
Qed.

Lemma all_space_cons (c : ascii) (s : string) :
  all_space (String c s) = Str.isspace c && all_space s.
Proof. reflexivity. Qed.

Lemma split_cons (sep c : ascii) (s : string) :
  Str.split sep (String c s) =
  if Ascii.eqb c sep then "" :: Str.split sep s
  else match Str.split sep s with
       | h :: t => String c h :: t
       | [] => [String c ""]
       end.
Proof. reflexivity. Qed.

Lemma all_space_no_match (lit : string) (c : ascii) (text : string) :
  Str.isspace c = false → all_space text = true →
  Re.search (String c lit) text = None.
Proof.
  intros Hsp. induction text as [|d text IH]; [done |].
  rewrite all_space_cons. destruct (Str.isspace d) eqn:Ed; [| done]. intros H.
  change (Re.search (String c lit) (String d text)) with
    (match Re.match_here (String c lit) (String d text) with
     | Some (g, _) => Some g
     | None => Re.search (String c lit) text
     end).
  unfold Re.match_here at 1.
  change (Re.strip_lit (String c lit) (String d text))
    with (if Ascii.eqb c d then Re.strip_lit lit text else None).
  destruct (Ascii.eqb c d) eqn:E; [apply Ascii.eqb_eq in E; congruence |].
  by apply IH.
Qed.

Lemma all_space_no_heading (text : string) :
  all_space text = true →
  Forall (fun l => Str.startswith "# " l = false) (Str.split Str.nl text).
Proof.
  induction text as [|d text IH]; [by repeat constructor |].
  rewrite all_space_cons, split_cons.
  destruct (Str.isspace d) eqn:Ed; [| done]. intros H. specialize (IH H).
  destruct (Ascii.eqb d Str.nl); [by constructor |].
  destruct (Str.split Str.nl text) as [|h t].
  - constructor; [| done].
    change (Str.startswith "# " (String d ""))
      with (Ascii.eqb "#" d && Str.startswith " " "").
    by rewrite andb_false_r.
  - apply Forall_cons in IH as [_ IH]. constructor; [| done].
    change (Str.startswith "# " (String d h))
      with (Ascii.eqb "#" d && Str.startswith " " h).
    destruct (Ascii.eqb "#" d) eqn:E; [| done].
    apply Ascii.eqb_eq in E as <-. done.
Qed.

(** X16: A document that is empty or all blanks has the placeholder title, no
    names, an empty excerpt, and one empty line as body. *)
Theorem blank_document (markdown : string → string) (text : string) :
  all_space text = true →
  parse_text markdown text = Parsed "No title" [] [] "" (markdown Str.NL).
Proof.
  intros H.
  assert (Hc : content_lines text = [""]).
  { unfold content_lines, content_md, Str.strip.
    by rewrite all_space_sub_head, all_space_lstrip. }
  assert (Ht : Re.search_bol "# " true text = None).
  { pose proof (all_space_no_heading text H) as Hl.
    destruct (Str.split Str.nl text) as [|l0 ls] eqn:Es;
      [by apply split_nonempty in Es |].
    apply Forall_cons in Hl as [H0 Hls].
    by apply (search_bol_no_heading "# " text l0 ls true). }
  unfold parse_text, parse_title, parse_categories, parse_tags, parse_names.
  rewrite Hc, Ht.
  change "Categories: " with (String "C" "ategories: ").
  change "Tags: " with (String "T" "ags: ").
  by rewrite !all_space_no_match.
Qed.

Lemma blank_document_witness :
  parse_text render_paragraph (" " +:+ Str.NL +:+ Str.NL)
  = Parsed "No title" [] [] "" (render_paragraph Str.NL).
Proof. apply blank_document. reflexivity. Defined.

(** ** Normalisation and resolution of names *)

Lemma replace_cons (old c : ascii) (new s : string) :
  Str.replace old new (String c s) =
  if Ascii.eqb c old then new +:+ Str.replace old new s
  else String c (Str.replace old new s).
Proof. reflexivity. Qed.

Lemma escape_amp_inj (a b : string) : escape_amp a = escape_amp b → a = b.
Proof.
  unfold escape_amp. revert b. induction a as [|c a IH]; intros [|d b].
  - done.
  - rewrite replace_cons. destruct (Ascii.eqb d "&"); done.
  - rewrite replace_cons. destruct (Ascii.eqb c "&"); done.
  - rewrite !replace_cons.
    destruct (Ascii.eqb c "&") eqn:Ec, (Ascii.eqb d "&") eqn:Ed.
    + apply Ascii.eqb_eq in Ec as ->, Ed as ->.
      intros H. injection H as H. by rewrite (IH b H).
    + intros H. injection H as H _. subst d. by rewrite Ascii.eqb_refl in Ed.
    + intros H. injection H as H _. subst c. by rewrite Ascii.eqb_refl in Ec.
    + intros H. injection H as -> H. by rewrite (IH b H).
Qed.

(** X17: Normalisation never merges names: two lists of names with the same
    normalised list are the same list. *)
Theorem modified_names_not_merged (l1 l2 : list string) :
  modified l1 = modified l2 → l1 = l2.
Proof.
  rewrite !modified_map. revert l2.
  induction l1 as [|a l1 IH]; intros [|b l2]; simpl; try done.
  intros H. injection H as Ha Hl. apply escape_amp_inj in Ha as ->.
  by rewrite (IH l2 Hl).
Qed.

Lemma modified_names_not_merged_witness : ["r&d"; "news"] = ["r&d"; "news"].
Proof. apply modified_names_not_merged. reflexivity. Defined.

Lemma escape_amp_no_amp (n : string) : Str.count "&" n = 0 → escape_amp n = n.
Proof.
  unfold escape_amp. induction n as [|c n IH]; [done |].
  rewrite replace_cons. simpl. destruct (Ascii.eqb c "&"); [done |].
  intros H. by rewrite IH.
Qed.

(** X18: Normalisation leaves a name as it is exactly when the name holds no
    ampersand; otherwise the name grows by four characters per ampersand. *)
Theorem escape_amp_changes_only_ampersands (n : string) :
  (escape_amp n = n ↔ Str.count "&" n = 0) ∧
  String.length (escape_amp n) = String.length n + 4 * Str.count "&" n.
Proof.
  split; [| apply length_escape_amp].
  split; [apply escape_amp_fixed | apply escape_amp_no_amp].
Qed.

(** X19: At most one identifier is sent per document name, and as many
    identifiers as names exactly when every name is in the map. *)
Theorem resolve_ids_length (d : gmap string json) (names : list string) :
  length (resolve_ids d names) ≤ length names ∧
  (length (resolve_ids d names) = length names
   ↔ Forall (fun c => is_Some (d !! c)) names).
Proof.
  induction names as [|c names [IH1 IH2]]; [by split |].
  destruct (d !! c) as [v|] eqn:E.
  - rewrite (resolve_ids_cons_Some d c v) by done. simpl. split; [lia |].
    rewrite Forall_cons, <- IH2, E. split.
    + intros H. split; [by eexists | lia].
    + intros [_ H]. lia.
  - rewrite resolve_ids_cons_None by done. simpl. split; [lia |].
    rewrite Forall_cons, E. split; [lia |]. by intros [[? ?] _].
Qed.

(** ** From the remote name to the identifier *)

(** X20: Matching ignores case and surrounding blanks: a document whose first
    Categories line is "Categories: T", with [T] free of commas, newlines
    and ampersands, resolves to the identifier the map holds under the
    lowercased remote name [N] whenever [T], stripped and lowercased, equals
    [N] lowercased. *)
Theorem category_matches_ignoring_case (markdown : string → string)
    (pre post T N : string) (category_map tag_map : gmap string json) (i : json) :
  complete_lines pre = true → Re.search "Categories: " pre = None →
  at_eol post = true →
  T ≠ "" → term_ok T → Str.count "&" T = 0 →
  Str.lower (Str.strip T) = Str.lower N →
  category_map !! Str.lower N = Some i →
  categories
    (build_payload (parse_text markdown (pre +:+ "Categories: " +:+ T +:+ post))
       category_map tag_map) = [i].
Proof.
  intros Hc Hs He Hne [Hcomma Hnl] Hamp Heq Hi.
  unfold build_payload, parse_text. cbn [categories p_categories].
  unfold parse_categories, parse_names.
  rewrite search_finds_line by done. rewrite split_no_sep by done.
  rewrite modified_map. cbn [map].
  assert (Hfix : escape_amp (Str.lower (Str.strip T)) = Str.lower (Str.strip T)).
  { apply escape_amp_no_amp.
    rewrite count_lower by apply lower_char_keeps_amp.
    pose proof (count_strip_le "&" T). lia. }
  rewrite Hfix, Heq. by rewrite (resolve_ids_cons_Some _ _ i).
Qed.

Lemma category_matches_ignoring_case_witness :
  categories
    (build_payload
       (parse_text render_paragraph
          (("# T" +:+ Str.NL) +:+ "Categories: " +:+ "  NEWS " +:+ (Str.NL +:+ "Body")))
       {["news" := JNum 1]} ∅) = [JNum 1].
Proof.
  apply (category_matches_ignoring_case render_paragraph ("# T" +:+ Str.NL)
    (Str.NL +:+ "Body") "  NEWS " "News" {["news" := JNum 1]} ∅ (JNum 1));
    try reflexivity; try discriminate.
  split; reflexivity.
Defined.

(** ** Shape of the body and the excerpt *)

Lemma complete_lines_sapp (a b : string) :
  b ≠ "" → complete_lines b = true → complete_lines (a +:+ b) = true.
Proof.
  intros Hb Hc. induction a as [|c a IH]; [done |].
  change (String c a +:+ b) with (String c (a +:+ b)).
  destruct (a +:+ b) as [|c' s] eqn:E; [by destruct a, b |].
  by rewrite complete_lines_tail.
Qed.

Lemma complete_lines_text (ls : list string) : complete_lines (lines_text ls) = true.
Proof.
  induction ls as [|l ls IH]; [done |]. simpl.
  apply complete_lines_sapp; [done |].
  change (Str.NL +:+ lines_text ls) with (String Str.nl (lines_text ls)).
  destruct (lines_text ls); [done |]. by rewrite complete_lines_tail.
Qed.

(** X21: The body handed to the renderer and the excerpt are each empty or end
    with a newline, and none of their lines starts with "Categories: " or
    "Tags: " or contains the marker. *)
Theorem body_and_excerpt_are_complete_lines (text : string) :
  let st := scan (content_lines text) in
  complete_lines (content_ st) = true ∧
  complete_lines (excerpt st) = true ∧
  Forall (fun l => dropped l = false)
    (removelast (Str.split Str.nl (content_ st)) ++
     removelast (Str.split Str.nl (excerpt st))).
Proof.
  set (lines := content_lines text).
  assert (Hn : Forall (fun l => Str.count Str.nl l = 0) lines).
  { apply Forall_forall. intros l Hl.
    by destruct (split_pieces Str.nl Str.nl (content_md text) l Hl). }
  unfold scan. destruct (scan_before_marker scan_init lines) as [-> ->]; [done |].
  simpl. split; [apply complete_lines_text |]. split; [apply complete_lines_text |].
  assert (G : ∀ ls, Forall (fun l => Str.count Str.nl l = 0) ls →
                    removelast (Str.split Str.nl (lines_text ls)) = ls).
  { induction ls as [|l ls IH]; [done |]. intros H.
    apply Forall_cons in H as [Hl Hls]. simpl.
    change (Str.NL +:+ lines_text ls) with (String Str.nl (lines_text ls)).
    rewrite split_sapp_sep by done.
    pose proof (split_nonempty Str.nl (lines_text ls)) as Hne.
    destruct (Str.split Str.nl (lines_text ls)) eqn:E; [done |].
    simpl in *. by rewrite IH. }
  assert (Hsub : ∀ ls, (∀ l, l ∈ ls → l ∈ lines) →
                       Forall (fun l => Str.count Str.nl l = 0) (kept ls)).
  { intros ls Hin. apply Forall_forall. intros l Hl.
    apply elem_of_kept in Hl as [Hl _].
    by apply (proj1 (Forall_forall _ _) Hn), Hin. }
  rewrite !G.
  - apply Forall_app. split; apply Forall_forall; intros l Hl;
      by apply elem_of_kept in Hl as [_ Hl].
  - apply Hsub. intros l Hl. apply before_after_in_lines. by right.
  - apply Hsub. intros l Hl. apply before_after_in_lines. by left.
Qed.

Lemma resolve_ids_empty (names : list string) : resolve_ids ∅ names = [].
Proof.
  induction names as [|c names IH]; [done |].
  by rewrite resolve_ids_cons_None by apply lookup_empty.
Qed.

(** X22: A remote system without terms: an empty listing gives the empty map, and
    against the empty map no name of any document resolves, so the post goes
    out with empty identifier lists. *)
Theorem empty_listing_resolves_nothing (p : parsed) (w : world)
    (term_type : string) (r : response) :
  terms_endpoint w term_type = Some r →
  http_failure (status_code r) = false →
  body r = Some (JArr []) →
  fetch_terms w term_type [] = (inr ∅, [ReqTerms term_type]) ∧
  categories (build_payload p ∅ ∅) = [] ∧
  tags (build_payload p ∅ ∅) = [].
Proof.
  intros Hr Hs Hb. rewrite fetch_terms_run. unfold terms_result, decoded.
  rewrite Hr, Hs, Hb. unfold build_payload. cbn [categories tags].
  by rewrite !resolve_ids_empty.
Qed.

Lemma empty_listing_resolves_nothing_witness :
  fetch_terms (w_terms (ok_json (JArr [])) None) "categories" []
    = (inr ∅, [ReqTerms "categories"]) ∧
  categories (build_payload (parse_text render_paragraph doc_hello) ∅ ∅) = [] ∧
  tags (build_payload (parse_text render_paragraph doc_hello) ∅ ∅) = [].
Proof.
  apply (empty_listing_resolves_nothing (parse_text render_paragraph doc_hello)
    (w_terms (ok_json (JArr [])) None) "categories" (Response 200 (Some (JArr []))));
    reflexivity.
Defined.
